(** * Ninja vs Zombies: the simulation core of [game.js], embedded in Rocq

    The development follows the source class by class: [CONFIG], [Utils],
    [Particle], [Projectile], [Portal], [Entity], [Player], [Zombie],
    [Boss] and [Game].  Each JavaScript method becomes a function that
    takes the receiver (and, where the method touches it, the game object)
    and returns the mutated copies.

    Numbers.  A JavaScript number is an IEEE-754 binary64 value.
    - Tick counters, timers, cooldowns, counts and the level index only ever
      hold integers: they are [Z].
    - Positions, sizes, velocities, health and damage are modelled by exact
      rationals in canonical form ([Qc], whose equality is [=]); the
      properties proved about them depend on the comparisons the code
      makes, not on rounding.
    - The player's energy is the accumulator of [energy += 0.2] guarded by
      [energy < maxEnergy]: whether the bound is respected is decided by the
      rounding of 0.2, so energy is modelled bit for bit by Rocq's primitive
      binary64 floats.

    [Math.random()] is an arbitrary sequence [random : nat -> Qc]; the game
    record counts the draws made so far.  Calls to [audio.playSound] are
    logged in the game record, newest first.  Drawing, DOM access and the
    wall clock are outside the model. *)

From Stdlib Require Import ZArith QArith Qround Qcanon Qcabs Lqa.
From Stdlib Require Import List String Bool Lia Floats.
Import ListNotations.

(** ** JavaScript numbers and operators *)

(** Decimal literals for [Qc]: [0.6] is [Q2Qc (6 # 10)]. *)
Variant IQc : Set := IQ2Qc (q : IQ).

Definition Qc_of_number (n : Number.number) : IQc :=
  IQ2Qc (QArith_base.of_number n).

Definition Qc_to_number (q : IQc) : option Number.number :=
  let 'IQ2Qc q := q in QArith_base.to_number q.

Number Notation Qc Qc_of_number Qc_to_number
  (via IQc mapping [Q2Qc => IQ2Qc, Qmake => IQmake, Qmult => IQmult,
                    Qdiv => IQdiv, Z.pow_pos => IZpow_pos,
                    Z0 => IZ0, Zpos => IZpos, Zneg => IZneg])
  : Qc_scope.

Open Scope Qc_scope.

(** [a < b] and [a <= b] on numbers, as booleans. *)
Definition Qcltb (a b : Qc) : bool := negb (Qle_bool b a).

Definition Qcleb (a b : Qc) : bool := Qle_bool a b.

Notation "a <? b" := (Qcltb a b) (at level 70, no associativity) : Qc_scope.
Notation "a >? b" := (Qcltb b a) (at level 70, no associativity) : Qc_scope.
Notation "a <=? b" := (Qcleb a b) (at level 70, no associativity) : Qc_scope.
Notation "a >=? b" := (Qcleb b a) (at level 70, no associativity) : Qc_scope.

(** [Math.floor], [Math.max] and [Math.min]. *)
Definition Math_floor (a : Qc) : Qc := Q2Qc (inject_Z (Qfloor a)).

Definition Math_max (a b : Qc) : Qc := if a <? b then b else a.

Definition Math_min (a b : Qc) : Qc := if b <? a then b else a.

(** An integer-valued field read in number arithmetic. *)
Definition num (n : Z) : Qc := Q2Qc (inject_Z n).

(** The binary64 value denoted by the literal [0.2]. *)
Definition float_0_2 : float := 0x1.999999999999ap-3%float.

(** The binary64 value denoted by the literal [0.3]. *)
Definition float_0_3 : float := 0x1.3333333333333p-2%float.

(** [Math.min] on binary64 values: NaN if either argument is NaN, and
    [-0] is below [+0]. *)
Definition Math_min_float (a b : float) : float :=
  if PrimFloat.is_nan a then a
  else if PrimFloat.is_nan b then b
  else if PrimFloat.ltb a b then a
  else if PrimFloat.ltb b a then b
  else if PrimFloat.get_sign a then a else b.

(** ** Constants *)

Module CONFIG.
Definition GRAVITY : Qc := 0.6.
Definition FRICTION : Qc := 0.8.
Definition PLAYER_SPEED : Qc := 5.
Definition JUMP_FORCE : Qc := -12.
Definition DASH_SPEED : Qc := 15.
Definition DASH_DURATION : Z := 10.
Definition INVINCIBILITY_DURATION : Z := 30.
Definition COMBO_TIMEOUT : Z := 60.
Definition SCREEN_WIDTH : Qc := 800.
Definition SCREEN_HEIGHT : Qc := 450.
Definition GROUND_Y : Qc := 380.
Definition LEVEL_LENGTH : Qc := 3000.
Definition SPAWN_RATE : Z := 120.
Definition MAX_COMBO : Z := 50.
End CONFIG.

(** ** Rectangles and [Utils] *)

Module Rect.
Record t : Type := mk { x : Qc; y : Qc; w : Qc; h : Qc }.
End Rect.

Module Utils.
Definition clamp (val min max : Qc) : Qc := Math_max min (Math_min max val).

Definition lerp (a b t : Qc) : Qc := a + (b - a) * t.

Definition rectIntersect (r1 r2 : Rect.t) : bool :=
  negb ((Rect.x r2 >? Rect.x r1 + Rect.w r1)
        || (Rect.x r2 + Rect.w r2 <? Rect.x r1)
        || (Rect.y r2 >? Rect.y r1 + Rect.h r1)
        || (Rect.y r2 + Rect.h r2 <? Rect.y r1)).
End Utils.

(** ** Particles, projectiles, the portal *)

Module Particle.
Record t : Type := mk {
  x : Qc; y : Qc; vx : Qc; vy : Qc;
  color : string; life : Z; maxLife : Z; size : Qc
}.

(** [new Particle(x, y, vx, vy, color, life, size)] *)
Definition new (x y vx vy : Qc) (color : string) (life : Z) (size : Qc) : t :=
  mk x y vx vy color life life size.

Definition update (p : t) : t :=
  mk (x p + vx p) (y p + vy p) (vx p) (vy p + 0.2)
     (color p) (life p - 1)%Z (maxLife p) (size p).
End Particle.

Inductive Owner : Type := OwnerPlayer | OwnerEnemy.

Module Projectile.
Record t : Type := mk {
  x : Qc; y : Qc; vx : Qc; vy : Qc; damage : Qc; owner : Owner;
  w : Qc; h : Qc; dead : bool
}.

Definition new (x y vx vy damage : Qc) (owner : Owner) : t :=
  mk x y vx vy damage owner 10 6 false.

Definition update (p : t) : t :=
  mk (x p + vx p) (y p + vy p) (vx p)
     (match owner p with OwnerEnemy => vy p + 0.1 | OwnerPlayer => vy p end)
     (damage p) (owner p) (w p) (h p) (dead p).

(** The literal [{x: p.x, y: p.y, w: p.w, h: p.h}] of [Game.update]
    (a projectile has no [getBounds]). *)
Definition bounds (p : t) : Rect.t := Rect.mk (x p) (y p) (w p) (h p).
End Projectile.

Module Portal.
Record t : Type := mk {
  x : Qc; y : Qc; w : Qc; h : Qc; active : bool; pulse : Qc
}.

Definition new (x y : Qc) : t := mk x y 60 80 false 0.

Definition update (p : t) : t :=
  mk (x p) (y p) (w p) (h p) (active p) (pulse p + 0.1).

(** The portal object read as a rectangle by [Utils.rectIntersect]. *)
Definition rect (p : t) : Rect.t := Rect.mk (x p) (y p) (w p) (h p).
End Portal.

(** ** [class Entity] *)

Module Entity.
(** [health] and [maxHealth] are assigned by every subclass constructor and
    read by [takeDamage]; they are kept with the base fields. *)
Record t : Type := mk {
  x : Qc;
  y : Qc;
  w : Qc;
  h : Qc;
  vx : Qc;
  vy : Qc;
  facing : Z;
  grounded : bool;
  dead : bool;
  invincible : Z;
  animFrame : Z;
  animTimer : Z;
  health : Qc;
  maxHealth : Qc
}.

Definition set_x (v : Qc) (o : t) : t :=
  mk v (y o) (w o) (h o) (vx o) (vy o) (facing o) (grounded o) (dead o)
     (invincible o) (animFrame o) (animTimer o) (health o) (maxHealth o).
Definition set_y (v : Qc) (o : t) : t :=
  mk (x o) v (w o) (h o) (vx o) (vy o) (facing o) (grounded o) (dead o)
     (invincible o) (animFrame o) (animTimer o) (health o) (maxHealth o).
Definition set_w (v : Qc) (o : t) : t :=
  mk (x o) (y o) v (h o) (vx o) (vy o) (facing o) (grounded o) (dead o)
     (invincible o) (animFrame o) (animTimer o) (health o) (maxHealth o).
Definition set_h (v : Qc) (o : t) : t :=
  mk (x o) (y o) (w o) v (vx o) (vy o) (facing o) (grounded o) (dead o)
     (invincible o) (animFrame o) (animTimer o) (health o) (maxHealth o).
Definition set_vx (v : Qc) (o : t) : t :=
  mk (x o) (y o) (w o) (h o) v (vy o) (facing o) (grounded o) (dead o)
     (invincible o) (animFrame o) (animTimer o) (health o) (maxHealth o).
Definition set_vy (v : Qc) (o : t) : t :=
  mk (x o) (y o) (w o) (h o) (vx o) v (facing o) (grounded o) (dead o)
     (invincible o) (animFrame o) (animTimer o) (health o) (maxHealth o).
Definition set_facing (v : Z) (o : t) : t :=
  mk (x o) (y o) (w o) (h o) (vx o) (vy o) v (grounded o) (dead o)
     (invincible o) (animFrame o) (animTimer o) (health o) (maxHealth o).
Definition set_grounded (v : bool) (o : t) : t :=
  mk (x o) (y o) (w o) (h o) (vx o) (vy o) (facing o) v (dead o)
     (invincible o) (animFrame o) (animTimer o) (health o) (maxHealth o).
Definition set_dead (v : bool) (o : t) : t :=
  mk (x o) (y o) (w o) (h o) (vx o) (vy o) (facing o) (grounded o) v
     (invincible o) (animFrame o) (animTimer o) (health o) (maxHealth o).
Definition set_invincible (v : Z) (o : t) : t :=
  mk (x o) (y o) (w o) (h o) (vx o) (vy o) (facing o) (grounded o) (dead o) v
     (animFrame o) (animTimer o) (health o) (maxHealth o).
Definition set_animFrame (v : Z) (o : t) : t :=
  mk (x o) (y o) (w o) (h o) (vx o) (vy o) (facing o) (grounded o) (dead o)
     (invincible o) v (animTimer o) (health o) (maxHealth o).
Definition set_animTimer (v : Z) (o : t) : t :=
  mk (x o) (y o) (w o) (h o) (vx o) (vy o) (facing o) (grounded o) (dead o)
     (invincible o) (animFrame o) v (health o) (maxHealth o).
Definition set_health (v : Qc) (o : t) : t :=
  mk (x o) (y o) (w o) (h o) (vx o) (vy o) (facing o) (grounded o) (dead o)
     (invincible o) (animFrame o) (animTimer o) v (maxHealth o).
Definition set_maxHealth (v : Qc) (o : t) : t :=
  mk (x o) (y o) (w o) (h o) (vx o) (vy o) (facing o) (grounded o) (dead o)
     (invincible o) (animFrame o) (animTimer o) (health o) v.
Definition new (x y w h : Qc) : t :=
  mk x y w h 0 0 1%Z false false 0%Z 0%Z 0%Z 0 0.

Definition getBounds (e : t) : Rect.t := Rect.mk (x e) (y e) (w e) (h e).

Definition updatePhysics (e : t) : t :=
  let e := set_vy (vy e + CONFIG.GRAVITY) e in
  let e := set_vx (vx e * CONFIG.FRICTION) e in
  let e := set_x (x e + vx e) e in
  let e := set_y (y e + vy e) e in
  (* Ground collision *)
  let e :=
    if y e + h e >? CONFIG.GROUND_Y then
      set_grounded true (set_vy 0 (set_y (CONFIG.GROUND_Y - h e) e))
    else set_grounded false e in
  if (invincible e >? 0)%Z then set_invincible (invincible e - 1)%Z e else e.

(** [takeDamage(amount, knockbackX)]: the returned boolean and the entity
    after the call. *)
Definition takeDamage (amount knockbackX : Qc) (e : t) : bool * t :=
  if (invincible e >? 0)%Z then (false, e)
  else
    let e := set_health (health e - amount) e in
    let e := set_vx knockbackX e in
    let e := set_vy (-3) e in
    let e := set_invincible CONFIG.INVINCIBILITY_DURATION e in
    let e := if health e <=? 0 then set_dead true e else e in
    (true, e).
End Entity.

(** ** [class Player extends Entity] *)

(** The object literal a player attack stores in [attackBox]. *)
Module AttackBox.
Record t : Type := mk {
  x : Qc; y : Qc; w : Qc; h : Qc; damage : Qc; knockback : Qc
}.

Definition rect (b : t) : Rect.t := Rect.mk (x b) (y b) (w b) (h b).
End AttackBox.

Module Player.
(** The strings ['idle'], ['walk'], ... held by [state]. *)
Inductive State : Type := Idle | Walk | Punch | Kick | Jump | Hurt | Block | Dash.

Definition State_eqb (a b : State) : bool :=
  match a, b with
  | Idle, Idle | Walk, Walk | Punch, Punch | Kick, Kick
  | Jump, Jump | Hurt, Hurt | Block, Block | Dash, Dash => true
  | _, _ => false
  end.

Record t : Type := mk {
  ent : Entity.t;
  maxEnergy : float;
  energy : float;
  combo : Z;
  comboTimer : Z;
  state : State;
  punchCount : Z;
  punchTimer : Z;
  blocking : bool;
  dashing : bool;
  dashTimer : Z;
  attackBox : option AttackBox.t;
  attackTimer : Z
}.

Definition set_ent (v : Entity.t) (o : t) : t :=
  mk v (maxEnergy o) (energy o) (combo o) (comboTimer o) (state o)
     (punchCount o) (punchTimer o) (blocking o) (dashing o) (dashTimer o)
     (attackBox o) (attackTimer o).
Definition set_maxEnergy (v : float) (o : t) : t :=
  mk (ent o) v (energy o) (combo o) (comboTimer o) (state o) (punchCount o)
     (punchTimer o) (blocking o) (dashing o) (dashTimer o) (attackBox o)
     (attackTimer o).
Definition set_energy (v : float) (o : t) : t :=
  mk (ent o) (maxEnergy o) v (combo o) (comboTimer o) (state o)
     (punchCount o) (punchTimer o) (blocking o) (dashing o) (dashTimer o)
     (attackBox o) (attackTimer o).
Definition set_combo (v : Z) (o : t) : t :=
  mk (ent o) (maxEnergy o) (energy o) v (comboTimer o) (state o)
     (punchCount o) (punchTimer o) (blocking o) (dashing o) (dashTimer o)
     (attackBox o) (attackTimer o).
Definition set_comboTimer (v : Z) (o : t) : t :=
  mk (ent o) (maxEnergy o) (energy o) (combo o) v (state o) (punchCount o)
     (punchTimer o) (blocking o) (dashing o) (dashTimer o) (attackBox o)
     (attackTimer o).
Definition set_state (v : State) (o : t) : t :=
  mk (ent o) (maxEnergy o) (energy o) (combo o) (comboTimer o) v
     (punchCount o) (punchTimer o) (blocking o) (dashing o) (dashTimer o)
     (attackBox o) (attackTimer o).
Definition set_punchCount (v : Z) (o : t) : t :=
  mk (ent o) (maxEnergy o) (energy o) (combo o) (comboTimer o) (state o) v
     (punchTimer o) (blocking o) (dashing o) (dashTimer o) (attackBox o)
     (attackTimer o).
Definition set_punchTimer (v : Z) (o : t) : t :=
  mk (ent o) (maxEnergy o) (energy o) (combo o) (comboTimer o) (state o)
     (punchCount o) v (blocking o) (dashing o) (dashTimer o) (attackBox o)
     (attackTimer o).
Definition set_blocking (v : bool) (o : t) : t :=
  mk (ent o) (maxEnergy o) (energy o) (combo o) (comboTimer o) (state o)
     (punchCount o) (punchTimer o) v (dashing o) (dashTimer o) (attackBox o)
     (attackTimer o).
Definition set_dashing (v : bool) (o : t) : t :=
  mk (ent o) (maxEnergy o) (energy o) (combo o) (comboTimer o) (state o)
     (punchCount o) (punchTimer o) (blocking o) v (dashTimer o) (attackBox o)
     (attackTimer o).
Definition set_dashTimer (v : Z) (o : t) : t :=
  mk (ent o) (maxEnergy o) (energy o) (combo o) (comboTimer o) (state o)
     (punchCount o) (punchTimer o) (blocking o) (dashing o) v (attackBox o)
     (attackTimer o).
Definition set_attackBox (v : option AttackBox.t) (o : t) : t :=
  mk (ent o) (maxEnergy o) (energy o) (combo o) (comboTimer o) (state o)
     (punchCount o) (punchTimer o) (blocking o) (dashing o) (dashTimer o) v
     (attackTimer o).
Definition set_attackTimer (v : Z) (o : t) : t :=
  mk (ent o) (maxEnergy o) (energy o) (combo o) (comboTimer o) (state o)
     (punchCount o) (punchTimer o) (blocking o) (dashing o) (dashTimer o)
     (attackBox o) v.
Definition new (x y : Qc) : t :=
  mk (Entity.set_health 100 (Entity.set_maxHealth 100 (Entity.new x y 30 50)))
     100%float 100%float 0%Z 0%Z Idle 0%Z 0%Z false false 0%Z None 0%Z.

(** Field access through the base class. *)
Definition x (p : t) : Qc := Entity.x (ent p).
Definition y (p : t) : Qc := Entity.y (ent p).
Definition w (p : t) : Qc := Entity.w (ent p).
Definition h (p : t) : Qc := Entity.h (ent p).
Definition vx (p : t) : Qc := Entity.vx (ent p).
Definition facing (p : t) : Z := Entity.facing (ent p).
Definition grounded (p : t) : bool := Entity.grounded (ent p).
Definition dead (p : t) : bool := Entity.dead (ent p).
Definition health (p : t) : Qc := Entity.health (ent p).

(** Inherited methods. *)
Definition getBounds (p : t) : Rect.t := Entity.getBounds (ent p).

Definition updatePhysics (p : t) : t := set_ent (Entity.updatePhysics (ent p)) p.

Definition takeDamage (amount knockbackX : Qc) (p : t) : bool * t :=
  let (result, e) := Entity.takeDamage amount knockbackX (ent p) in
  (result, set_ent e p).

Definition punch (p : t) : t :=
  let p := set_punchCount (Z.rem (punchCount p) 3 + 1)%Z p in
  let p := set_punchTimer 20%Z p in
  let p := set_attackTimer 15%Z p in
  let p := set_state Punch p in
  (* Create hitbox *)
  let reach := 40 in
  let p := set_attackBox (Some (AttackBox.mk
      (if (facing p >? 0)%Z then x p + w p else x p - reach)
      (y p + 10) reach 30
      (10 + num (punchCount p) * 5)
      (num (facing p) * 5))) p in
  (* Freeze briefly for impact *)
  set_ent (Entity.set_vx (vx p * 0.3) (ent p)) p.

Definition kick (p : t) : t :=
  let p := set_attackTimer 25%Z p in
  let p := set_state Kick p in
  let reach := 55 in
  set_attackBox (Some (AttackBox.mk
      (if (facing p >? 0)%Z then x p + w p else x p - reach)
      (y p + 15) reach 25 20 (num (facing p) * 8))) p.

Definition jumpKick (p : t) : t :=
  let p := set_attackTimer 20%Z p in
  let p := set_state Kick p in
  let reach := 50 in
  set_attackBox (Some (AttackBox.mk
      (if (facing p >? 0)%Z then x p + w p else x p - reach)
      (y p + 10) reach 35 15 (num (facing p) * 6))) p.

Definition updateAnimation (p : t) : t :=
  let e := ent p in
  let e := Entity.set_animTimer (Entity.animTimer e + 1)%Z e in
  let e :=
    if (Entity.animTimer e >? 6)%Z then
      Entity.set_animFrame (Z.rem (Entity.animFrame e + 1) 4)
        (Entity.set_animTimer 0%Z e)
    else e in
  set_ent e p.

Definition addCombo (p : t) : t :=
  let p := set_combo (combo p + 1)%Z p in
  let p := set_combo (Z.min (combo p) CONFIG.MAX_COMBO) p in
  let p := set_comboTimer CONFIG.COMBO_TIMEOUT p in
  set_energy (Math_min_float (energy p + 5)%float (maxEnergy p)) p.
End Player.

(** ** [class Zombie extends Entity] *)

Module Zombie.
(** The [type] strings: the four of [setupType], and ['boss'], which the
    [Boss] constructor passes to [super]. *)
Inductive ZType : Type := basic | fast | tank | ranged | boss.

Definition is_ranged (ty : ZType) : bool :=
  match ty with ranged => true | _ => false end.

Inductive State : Type := Idle | Walk | Attack | Hurt.

Record t : Type := mk {
  ent : Entity.t;
  type : ZType;
  speed : Qc;
  damage : Qc;
  color : string;
  attackCooldown : Z;
  detectRange : Qc;
  attackRange : Qc;
  state : State
}.

Definition set_ent (v : Entity.t) (o : t) : t :=
  mk v (type o) (speed o) (damage o) (color o) (attackCooldown o)
     (detectRange o) (attackRange o) (state o).
Definition set_type (v : ZType) (o : t) : t :=
  mk (ent o) v (speed o) (damage o) (color o) (attackCooldown o)
     (detectRange o) (attackRange o) (state o).
Definition set_speed (v : Qc) (o : t) : t :=
  mk (ent o) (type o) v (damage o) (color o) (attackCooldown o)
     (detectRange o) (attackRange o) (state o).
Definition set_damage (v : Qc) (o : t) : t :=
  mk (ent o) (type o) (speed o) v (color o) (attackCooldown o)
     (detectRange o) (attackRange o) (state o).
Definition set_color (v : string) (o : t) : t :=
  mk (ent o) (type o) (speed o) (damage o) v (attackCooldown o)
     (detectRange o) (attackRange o) (state o).
Definition set_attackCooldown (v : Z) (o : t) : t :=
  mk (ent o) (type o) (speed o) (damage o) (color o) v (detectRange o)
     (attackRange o) (state o).
Definition set_detectRange (v : Qc) (o : t) : t :=
  mk (ent o) (type o) (speed o) (damage o) (color o) (attackCooldown o) v
     (attackRange o) (state o).
Definition set_attackRange (v : Qc) (o : t) : t :=
  mk (ent o) (type o) (speed o) (damage o) (color o) (attackCooldown o)
     (detectRange o) v (state o).
Definition set_state (v : State) (o : t) : t :=
  mk (ent o) (type o) (speed o) (damage o) (color o) (attackCooldown o)
     (detectRange o) (attackRange o) v.
Definition x (z : t) : Qc := Entity.x (ent z).
Definition y (z : t) : Qc := Entity.y (ent z).
Definition w (z : t) : Qc := Entity.w (ent z).
Definition h (z : t) : Qc := Entity.h (ent z).
Definition vx (z : t) : Qc := Entity.vx (ent z).
Definition facing (z : t) : Z := Entity.facing (ent z).
Definition dead (z : t) : bool := Entity.dead (ent z).
Definition health (z : t) : Qc := Entity.health (ent z).
Definition maxHealth (z : t) : Qc := Entity.maxHealth (ent z).

Definition on_ent (f : Entity.t -> Entity.t) (z : t) : t := set_ent (f (ent z)) z.

Definition setupType (z : t) : t :=
  let z :=
    match type z with
    | basic =>
        let z := on_ent (Entity.set_maxHealth 30) z in
        let z := set_speed 0.8 z in
        let z := set_damage 10 z in
        set_color "#4a4" z
    | fast =>
        let z := on_ent (Entity.set_maxHealth 20) z in
        let z := set_speed 2.5 z in
        let z := set_damage 8 z in
        let z := set_color "#6c6" z in
        let z := on_ent (Entity.set_w 25) z in
        let z := on_ent (Entity.set_h 40) z in
        on_ent (Entity.set_y (y z + 10)) z
    | tank =>
        let z := on_ent (Entity.set_maxHealth 80) z in
        let z := set_speed 0.4 z in
        let z := set_damage 20 z in
        let z := set_color "#2a2" z in
        let z := on_ent (Entity.set_w 40) z in
        on_ent (Entity.set_h 55) z
    | ranged =>
        let z := on_ent (Entity.set_maxHealth 25) z in
        let z := set_speed 1 z in
        let z := set_damage 15 z in
        let z := set_color "#8a8" z in
        set_attackRange 150 z
    | boss => z
    end in
  on_ent (Entity.set_health (maxHealth z)) z.

(** [new Zombie(x, y, type)].  The fields a JavaScript object does not have
    yet when [setupType] runs ([speed], [damage], [color], the ranges) hold
    a placeholder here; the constructor body assigns [attackCooldown],
    [detectRange], [attackRange] and [state] after [setupType]. *)
Definition new (x y : Qc) (type : ZType) : t :=
  let z := mk (Entity.new x y 30 50) type 0 0 "" 0%Z 0 0 Idle in
  let z := setupType z in
  let z := set_attackCooldown 0%Z z in
  let z := set_detectRange 200 z in
  let z := set_attackRange 40 z in
  set_state Idle z.

Definition getBounds (z : t) : Rect.t := Entity.getBounds (ent z).

Definition updatePhysics (z : t) : t := on_ent Entity.updatePhysics z.

Definition takeDamage (amount knockbackX : Qc) (z : t) : bool * t :=
  let (result, e) := Entity.takeDamage amount knockbackX (ent z) in
  let z := set_ent e z in
  let z := if result then set_state Hurt z else z in
  (result, z).

Definition updateAnimation (z : t) : t :=
  let e := ent z in
  let e := Entity.set_animTimer (Entity.animTimer e + 1)%Z e in
  let e :=
    if (Entity.animTimer e >? 8)%Z then
      Entity.set_animFrame (Z.rem (Entity.animFrame e + 1) 4)
        (Entity.set_animTimer 0%Z e)
    else e in
  set_ent e z.
End Zombie.

(** ** [class Boss extends Zombie] *)

Module Boss.
Record t : Type := mk {
  zom : Zombie.t;
  phase : Z;
  specialCooldown : Z
}.

Definition set_zom (v : Zombie.t) (o : t) : t :=
  mk v (phase o) (specialCooldown o).
Definition set_phase (v : Z) (o : t) : t :=
  mk (zom o) v (specialCooldown o).
Definition set_specialCooldown (v : Z) (o : t) : t :=
  mk (zom o) (phase o) v.
Definition on_ent (f : Entity.t -> Entity.t) (b : t) : t :=
  set_zom (Zombie.on_ent f (zom b)) b.

Definition new (x y : Qc) : t :=
  let z := Zombie.new x y Zombie.boss in
  let z := Zombie.on_ent (Entity.set_w 60) z in
  let z := Zombie.on_ent (Entity.set_h 80) z in
  let z := Zombie.on_ent (Entity.set_maxHealth 300) z in
  let z := Zombie.on_ent (Entity.set_health (Zombie.maxHealth z)) z in
  let z := Zombie.set_speed 0.6 z in
  let z := Zombie.set_damage 25 z in
  let z := Zombie.set_color "#484" z in
  mk z 1%Z 0%Z.

Definition x (b : t) : Qc := Zombie.x (zom b).
Definition y (b : t) : Qc := Zombie.y (zom b).
Definition w (b : t) : Qc := Zombie.w (zom b).
Definition h (b : t) : Qc := Zombie.h (zom b).
Definition dead (b : t) : bool := Zombie.dead (zom b).
Definition health (b : t) : Qc := Zombie.health (zom b).
Definition maxHealth (b : t) : Qc := Zombie.maxHealth (zom b).
Definition speed (b : t) : Qc := Zombie.speed (zom b).
Definition attackCooldown (b : t) : Z := Zombie.attackCooldown (zom b).

(** Inherited from [Zombie]. *)
Definition takeDamage (amount knockbackX : Qc) (b : t) : bool * t :=
  let (result, z) := Zombie.takeDamage amount knockbackX (zom b) in
  (result, set_zom z b).
End Boss.

(** An element of [game.enemies]: a plain zombie or the boss; method calls
    on it dispatch on the class. *)
Inductive Enemy : Type :=
| EZombie (z : Zombie.t)
| EBoss (b : Boss.t).

Definition Enemy_dead (e : Enemy) : bool :=
  match e with EZombie z => Zombie.dead z | EBoss b => Boss.dead b end.

Definition Enemy_ent (e : Enemy) : Entity.t :=
  match e with EZombie z => Zombie.ent z | EBoss b => Zombie.ent (Boss.zom b) end.

Definition Enemy_getBounds (e : Enemy) : Rect.t := Entity.getBounds (Enemy_ent e).

Definition Enemy_takeDamage (amount knockbackX : Qc) (e : Enemy) : bool * Enemy :=
  match e with
  | EZombie z => let (r, z) := Zombie.takeDamage amount knockbackX z in (r, EZombie z)
  | EBoss b => let (r, b) := Boss.takeDamage amount knockbackX b in (r, EBoss b)
  end.

(** ** The input contract read by [Player.update] *)

Module Input.
(** [isPressed(name)] for the six buttons, and [getJoystickX()]. *)
Record t : Type := mk {
  jump : bool; attack : bool; kick : bool; special : bool;
  block : bool; dash : bool; joystickX : Qc
}.

Definition none : t := mk false false false false false false 0.
End Input.

(** ** [class Game]: the state *)

Module Game.
Inductive State : Type := menu | playing | paused | gameover | complete.

Definition is_playing (s : State) : bool :=
  match s with playing => true | _ => false end.

(** The fields of [reset()] that the simulation step reads or writes, the
    log of [audio.playSound] calls ([sounds], newest first) and the number
    of [Math.random()] draws made so far ([draws]). *)
Record t : Type := mk {
  player : Player.t;
  enemies : list Enemy;
  projectiles : list Projectile.t;
  particles : list Particle.t;
  portal : option Portal.t;
  cameraX : Qc;
  level : Z;
  score : Z;
  kills : Z;
  maxCombo : Z;
  spawnTimer : Z;
  enemiesToSpawn : Z;
  enemiesSpawned : Z;
  bossSpawned : bool;
  screenShake : Qc;
  state : State;
  sounds : list string;
  draws : nat
}.

Definition set_player (v : Player.t) (o : t) : t :=
  mk v (enemies o) (projectiles o) (particles o) (portal o) (cameraX o)
     (level o) (score o) (kills o) (maxCombo o) (spawnTimer o)
     (enemiesToSpawn o) (enemiesSpawned o) (bossSpawned o) (screenShake o)
     (state o) (sounds o) (draws o).
Definition set_enemies (v : list Enemy) (o : t) : t :=
  mk (player o) v (projectiles o) (particles o) (portal o) (cameraX o)
     (level o) (score o) (kills o) (maxCombo o) (spawnTimer o)
     (enemiesToSpawn o) (enemiesSpawned o) (bossSpawned o) (screenShake o)
     (state o) (sounds o) (draws o).
Definition set_projectiles (v : list Projectile.t) (o : t) : t :=
  mk (player o) (enemies o) v (particles o) (portal o) (cameraX o) (level o)
     (score o) (kills o) (maxCombo o) (spawnTimer o) (enemiesToSpawn o)
     (enemiesSpawned o) (bossSpawned o) (screenShake o) (state o) (sounds o)
     (draws o).
Definition set_particles (v : list Particle.t) (o : t) : t :=
  mk (player o) (enemies o) (projectiles o) v (portal o) (cameraX o)
     (level o) (score o) (kills o) (maxCombo o) (spawnTimer o)
     (enemiesToSpawn o) (enemiesSpawned o) (bossSpawned o) (screenShake o)
     (state o) (sounds o) (draws o).
Definition set_portal (v : option Portal.t) (o : t) : t :=
  mk (player o) (enemies o) (projectiles o) (particles o) v (cameraX o)
     (level o) (score o) (kills o) (maxCombo o) (spawnTimer o)
     (enemiesToSpawn o) (enemiesSpawned o) (bossSpawned o) (screenShake o)
     (state o) (sounds o) (draws o).
Definition set_cameraX (v : Qc) (o : t) : t :=
  mk (player o) (enemies o) (projectiles o) (particles o) (portal o) v
     (level o) (score o) (kills o) (maxCombo o) (spawnTimer o)
     (enemiesToSpawn o) (enemiesSpawned o) (bossSpawned o) (screenShake o)
     (state o) (sounds o) (draws o).
Definition set_level (v : Z) (o : t) : t :=
  mk (player o) (enemies o) (projectiles o) (particles o) (portal o)
     (cameraX o) v (score o) (kills o) (maxCombo o) (spawnTimer o)
     (enemiesToSpawn o) (enemiesSpawned o) (bossSpawned o) (screenShake o)
     (state o) (sounds o) (draws o).
Definition set_score (v : Z) (o : t) : t :=
  mk (player o) (enemies o) (projectiles o) (particles o) (portal o)
     (cameraX o) (level o) v (kills o) (maxCombo o) (spawnTimer o)
     (enemiesToSpawn o) (enemiesSpawned o) (bossSpawned o) (screenShake o)
     (state o) (sounds o) (draws o).
Definition set_kills (v : Z) (o : t) : t :=
  mk (player o) (enemies o) (projectiles o) (particles o) (portal o)
     (cameraX o) (level o) (score o) v (maxCombo o) (spawnTimer o)
     (enemiesToSpawn o) (enemiesSpawned o) (bossSpawned o) (screenShake o)
     (state o) (sounds o) (draws o).
Definition set_maxCombo (v : Z) (o : t) : t :=
  mk (player o) (enemies o) (projectiles o) (particles o) (portal o)
     (cameraX o) (level o) (score o) (kills o) v (spawnTimer o)
     (enemiesToSpawn o) (enemiesSpawned o) (bossSpawned o) (screenShake o)
     (state o) (sounds o) (draws o).
Definition set_spawnTimer (v : Z) (o : t) : t :=
  mk (player o) (enemies o) (projectiles o) (particles o) (portal o)
     (cameraX o) (level o) (score o) (kills o) (maxCombo o) v
     (enemiesToSpawn o) (enemiesSpawned o) (bossSpawned o) (screenShake o)
     (state o) (sounds o) (draws o).
Definition set_enemiesToSpawn (v : Z) (o : t) : t :=
  mk (player o) (enemies o) (projectiles o) (particles o) (portal o)
     (cameraX o) (level o) (score o) (kills o) (maxCombo o) (spawnTimer o) v
     (enemiesSpawned o) (bossSpawned o) (screenShake o) (state o) (sounds o)
     (draws o).
Definition set_enemiesSpawned (v : Z) (o : t) : t :=
  mk (player o) (enemies o) (projectiles o) (particles o) (portal o)
     (cameraX o) (level o) (score o) (kills o) (maxCombo o) (spawnTimer o)
     (enemiesToSpawn o) v (bossSpawned o) (screenShake o) (state o)
     (sounds o) (draws o).
Definition set_bossSpawned (v : bool) (o : t) : t :=
  mk (player o) (enemies o) (projectiles o) (particles o) (portal o)
     (cameraX o) (level o) (score o) (kills o) (maxCombo o) (spawnTimer o)
     (enemiesToSpawn o) (enemiesSpawned o) v (screenShake o) (state o)
     (sounds o) (draws o).
Definition set_screenShake (v : Qc) (o : t) : t :=
  mk (player o) (enemies o) (projectiles o) (particles o) (portal o)
     (cameraX o) (level o) (score o) (kills o) (maxCombo o) (spawnTimer o)
     (enemiesToSpawn o) (enemiesSpawned o) (bossSpawned o) v (state o)
     (sounds o) (draws o).
Definition set_state (v : State) (o : t) : t :=
  mk (player o) (enemies o) (projectiles o) (particles o) (portal o)
     (cameraX o) (level o) (score o) (kills o) (maxCombo o) (spawnTimer o)
     (enemiesToSpawn o) (enemiesSpawned o) (bossSpawned o) (screenShake o) v
     (sounds o) (draws o).
Definition set_sounds (v : list string) (o : t) : t :=
  mk (player o) (enemies o) (projectiles o) (particles o) (portal o)
     (cameraX o) (level o) (score o) (kills o) (maxCombo o) (spawnTimer o)
     (enemiesToSpawn o) (enemiesSpawned o) (bossSpawned o) (screenShake o)
     (state o) v (draws o).
Definition set_draws (v : nat) (o : t) : t :=
  mk (player o) (enemies o) (projectiles o) (particles o) (portal o)
     (cameraX o) (level o) (score o) (kills o) (maxCombo o) (spawnTimer o)
     (enemiesToSpawn o) (enemiesSpawned o) (bossSpawned o) (screenShake o)
     (state o) (sounds o) v.
Definition playSound (name : string) (g : t) : t := set_sounds (name :: sounds g) g.

Definition on_player (f : Player.t -> Player.t) (g : t) : t :=
  set_player (f (player g)) g.

Definition pushParticle (p : Particle.t) (g : t) : t :=
  set_particles (particles g ++ [p]) g.

Definition pushProjectile (p : Projectile.t) (g : t) : t :=
  set_projectiles (projectiles g ++ [p]) g.

Definition pushEnemy (e : Enemy) (g : t) : t :=
  set_enemies (enemies g ++ [e]) g.
End Game.

(** ** The methods that take the game object

    [Game.update] calls [this.player.update(this.input, this)] and
    [e.update(this.player, this)]: the [player] argument of the enemy
    methods is always [game.player], the same object.  The functions below
    therefore read and write the player through the game record. *)

Section Simulation.

(** The values returned by successive calls of [Math.random()]. *)
Variable random : nat -> Qc.

(** [this.canvas.width], set from the window by [resize()]. *)
Variable canvasWidth : Qc.

Definition Math_random (g : Game.t) : Qc * Game.t :=
  (random (Game.draws g), Game.set_draws (S (Game.draws g)) g).

(** A loop [for (i = 0; i < n; i++) game.particles.push(new Particle(...))]
    whose particle draws two random numbers, in argument order. *)
Fixpoint pushParticles (n : nat) (make : Qc -> Qc -> Particle.t) (g : Game.t)
  : Game.t :=
  match n with
  | O => g
  | S n' =>
      let (r1, g) := Math_random g in
      let (r2, g) := Math_random g in
      pushParticles n' make (Game.pushParticle (make r1 r2) g)
  end.

(** *** Player *)

Definition Player_special (g : Game.t) : Game.t :=
  let p := Game.player g in
  let p := Player.set_energy (Player.energy p - 30)%float p in
  let p := Player.set_attackTimer 30%Z p in
  let p := Player.set_state Player.Punch p in
  (* AOE attack *)
  let reach := 80 in
  let p := Player.set_attackBox (Some (AttackBox.mk
      (if (Player.facing p >? 0)%Z then Player.x p + Player.w p - 20
       else Player.x p - reach + 20)
      (Player.y p - 10) reach 70 40 (num (Player.facing p) * 12))) p in
  let g := Game.set_player p g in
  (* Screen shake *)
  let g := Game.set_screenShake 10 g in
  let g := Game.playSound "special" g in
  (* Particles *)
  pushParticles 10
    (fun r1 r2 =>
       Particle.new (Player.x p + Player.w p / 2) (Player.y p + Player.h p / 2)
         ((r1 - 0.5) * 10) ((r2 - 0.5) * 10) "#8844ff" 30%Z 4)
    g.

(** [state !== 'punch' && state !== 'kick'] *)
Definition Player_free (p : Player.t) : bool :=
  negb (Player.State_eqb (Player.state p) Player.Punch)
  && negb (Player.State_eqb (Player.state p) Player.Kick).

(** The head of [Player.update]: state timers and energy regeneration. *)
Definition Player_update_timers (p : Player.t) : Player.t :=
  let p :=
    if (Player.comboTimer p >? 0)%Z
    then Player.set_comboTimer (Player.comboTimer p - 1)%Z p
    else Player.set_combo 0%Z p in
  let p :=
    if (Player.punchTimer p >? 0)%Z
    then Player.set_punchTimer (Player.punchTimer p - 1)%Z p else p in
  let p :=
    if (Player.attackTimer p >? 0)%Z
    then Player.set_attackTimer (Player.attackTimer p - 1)%Z p else p in
  let p :=
    if (Player.dashTimer p >? 0)%Z
    then Player.set_dashTimer (Player.dashTimer p - 1)%Z p else p in
  (* Energy regeneration *)
  if (Player.energy p <? Player.maxEnergy p)%float
  then Player.set_energy (Player.energy p + float_0_2)%float p
  else p.

(** The tail of [Player.update], reached when the player neither dashes nor
    blocks, one definition for each commented block of the source. *)

(** [// Movement] *)
Definition Player_update_movement (input : Input.t) (p : Player.t) : Player.t :=
  let moveInput := Input.joystickX input in
  if Qcabs moveInput >? 0.1 then
    let p :=
      if negb (Player.dashing p)
      then Player.set_ent (Entity.set_vx (moveInput * CONFIG.PLAYER_SPEED)
                             (Player.ent p)) p
      else p in
    let p := Player.set_ent
               (Entity.set_facing (if moveInput >? 0 then 1%Z else (-1)%Z)
                  (Player.ent p)) p in
    if Player.grounded p && Player_free p
    then Player.set_state Player.Walk p else p
  else if Player.grounded p && Player_free p
  then Player.set_state Player.Idle p else p.

(** [// Jump] *)
Definition Player_update_jump (input : Input.t) (g : Game.t) : Game.t :=
  let p := Game.player g in
  if Input.jump input && Player.grounded p && Player_free p then
    let p := Player.set_ent
               (Entity.set_grounded false
                  (Entity.set_vy CONFIG.JUMP_FORCE (Player.ent p))) p in
    let p := Player.set_state Player.Jump p in
    Game.playSound "jump" (Game.set_player p g)
  else g.

(** [// Dash] *)
Definition Player_update_dash (input : Input.t) (g : Game.t) : Game.t :=
  let p := Game.player g in
  if Input.dash input && negb (Player.dashing p)
     && (Player.dashTimer p <=? 0)%Z then
    let p := Player.set_dashing true p in
    let p := Player.set_dashTimer CONFIG.DASH_DURATION p in
    let p := Player.set_ent
               (Entity.set_invincible CONFIG.DASH_DURATION (Player.ent p)) p in
    Game.playSound "dash" (Game.set_player p g)
  else g.

(** [// Punch combo] *)
Definition Player_update_punch (input : Input.t) (p : Player.t) : Player.t :=
  if Input.attack input && (Player.attackTimer p <=? 0)%Z
  then Player.punch p else p.

(** [// Kick] *)
Definition Player_update_kick (input : Input.t) (p : Player.t) : Player.t :=
  if Input.kick input && Player.grounded p && (Player.attackTimer p <=? 0)%Z
  then Player.kick p else p.

(** [// Special attack] *)
Definition Player_update_special (input : Input.t) (g : Game.t) : Game.t :=
  let p := Game.player g in
  if Input.special input && (30 <=? Player.energy p)%float
     && (Player.attackTimer p <=? 0)%Z
  then Player_special g else g.

(** [// Jump kick] *)
Definition Player_update_jumpKick (input : Input.t) (p : Player.t) : Player.t :=
  if Input.kick input && negb (Player.grounded p)
     && (Player.attackTimer p <=? 0)%Z
  then Player.jumpKick p else p.

(** [// Clear attack box] *)
Definition Player_update_clearAttackBox (p : Player.t) : Player.t :=
  if (Player.attackTimer p <=? 0)%Z then Player.set_attackBox None p else p.

Definition Player_update_act (input : Input.t) (g : Game.t) : Game.t :=
  let g := Game.on_player (Player_update_movement input) g in
  let g := Player_update_jump input g in
  let g := Player_update_dash input g in
  let g := Game.on_player (Player_update_punch input) g in
  let g := Game.on_player (Player_update_kick input) g in
  let g := Player_update_special input g in
  let g := Game.on_player (Player_update_jumpKick input) g in
  let g := Game.on_player Player_update_clearAttackBox g in
  Game.on_player (fun p => Player.updateAnimation (Player.updatePhysics p)) g.

Definition Player_update (input : Input.t) (g : Game.t) : Game.t :=
  let p := Player_update_timers (Game.player g) in
  (* Handle dashing *)
  if Player.dashing p then
    let p := Player.set_ent
               (Entity.set_vx (num (Player.facing p) * CONFIG.DASH_SPEED)
                  (Player.ent p)) p in
    let p := if (Player.dashTimer p <=? 0)%Z
             then Player.set_dashing false p else p in
    Game.set_player (Player.updatePhysics p) g
  else
    (* Handle blocking *)
    let p := Player.set_blocking (Input.block input && Player.grounded p) p in
    if Player.blocking p then
      let p := Player.set_ent
                 (Entity.set_vx (Player.vx p * 0.5) (Player.ent p)) p in
      let p := Player.set_state Player.Block p in
      Game.set_player (Player.updatePhysics p) g
    else Player_update_act input (Game.set_player p g).

(** *** Zombie *)

(** The melee hitbox built by [attack]. *)
Definition Zombie_hitbox (z : Zombie.t) : Rect.t :=
  Rect.mk (if (Zombie.facing z >? 0)%Z then Zombie.x z + Zombie.w z
           else Zombie.x z - 30)
          (Zombie.y z) 30 40.

Definition Zombie_attack (z : Zombie.t) (g : Game.t) : Zombie.t * Game.t :=
  let z := Zombie.set_attackCooldown 60%Z z in
  let z := Zombie.set_state Zombie.Attack z in
  (* Check hit *)
  let hitbox := Zombie_hitbox z in
  if Utils.rectIntersect hitbox (Player.getBounds (Game.player g)) then
    let damage := Zombie.damage z in
    let '(damage, g) :=
      if Player.blocking (Game.player g)
      then (Math_floor (damage * 0.3), Game.playSound "block" g)
      else (damage, g) in
    let (hit, p) :=
      Player.takeDamage damage (num (Zombie.facing z) * 3) (Game.player g) in
    let g := Game.set_player p g in
    if hit then
      let g := Game.playSound "hit" g in
      let g := Game.set_screenShake 5 g in
      (* Blood particles *)
      (z, pushParticles 5
            (fun r1 r2 =>
               Particle.new (Player.x p + Player.w p / 2)
                 (Player.y p + Player.h p / 2)
                 ((r1 - 0.5) * 5) ((r2 - 0.5) * 5) "#f00" 20%Z 3)
            g)
    else (z, g)
  else (z, g).

Definition Zombie_rangedAttack (z : Zombie.t) (g : Game.t)
  : Zombie.t * Game.t :=
  let z := Zombie.set_attackCooldown 90%Z z in
  let z := Zombie.set_state Zombie.Attack z in
  (* Spawn projectile *)
  (z, Game.pushProjectile
        (Projectile.new (Zombie.x z + Zombie.w z / 2) (Zombie.y z + 10)
           (num (Zombie.facing z) * 4) 0 (Zombie.damage z) OwnerEnemy)
        g).

Definition Zombie_update (z : Zombie.t) (g : Game.t) : Zombie.t * Game.t :=
  if Zombie.dead z then (z, g)
  else
    let z :=
      if (Zombie.attackCooldown z >? 0)%Z
      then Zombie.set_attackCooldown (Zombie.attackCooldown z - 1)%Z z
      else z in
    let distToPlayer := Player.x (Game.player g) - Zombie.x z in
    let absDist := Qcabs distToPlayer in
    (* AI behavior *)
    let '(z, g) :=
      if absDist <? Zombie.detectRange z then
        if absDist >? Zombie.attackRange z then
          (* Move toward player *)
          let z := Zombie.on_ent
                     (Entity.set_facing
                        (if distToPlayer >? 0 then 1%Z else (-1)%Z)) z in
          let z := Zombie.on_ent
                     (Entity.set_vx (num (Zombie.facing z) * Zombie.speed z)) z in
          (Zombie.set_state Zombie.Walk z, g)
        else if (Zombie.attackCooldown z <=? 0)%Z then
          (* Attack *)
          Zombie_attack z g
        else
          let z := Zombie.on_ent (Entity.set_vx (Zombie.vx z * 0.5)) z in
          (Zombie.set_state Zombie.Idle z, g)
      else
        let z := Zombie.on_ent (Entity.set_vx (Zombie.vx z * 0.5)) z in
        (Zombie.set_state Zombie.Idle z, g) in
    (* Ranged zombie behavior *)
    let '(z, g) :=
      if Zombie.is_ranged (Zombie.type z)
         && (absDist <? Zombie.attackRange z)
         && (Zombie.attackCooldown z <=? 0)%Z
      then Zombie_rangedAttack z g
      else (z, g) in
    (Zombie.updateAnimation (Zombie.updatePhysics z), g).

(** *** Boss *)

Definition Boss_groundSmash (b : Boss.t) (g : Game.t) : Boss.t * Game.t :=
  let b := Boss.set_specialCooldown 180%Z b in
  (* AOE damage *)
  let p := Game.player g in
  let dist := Qcabs (Player.x p - Boss.x b) in
  let g :=
    if dist <? 120 then
      let (_, p) :=
        Player.takeDamage 20
          (num (if Player.x p >? Boss.x b then 1%Z else (-1)%Z) * 8) p in
      let g := Game.set_player p g in
      let g := Game.playSound "hit" g in
      Game.set_screenShake 15 g
    else g in
  (* Spawn particles *)
  let g :=
    pushParticles 20
      (fun r1 r2 =>
         Particle.new (Boss.x b + Boss.w b / 2) (Boss.y b + Boss.h b)
           ((r1 - 0.5) * 10) (- r2 * 5) "#664" 40%Z 5)
      g in
  (* Spawn minions in phase 2 *)
  let g :=
    if (Boss.phase b =? 2)%Z then
      let g := Game.pushEnemy
                 (EZombie (Zombie.new (Boss.x b - 50) (CONFIG.GROUND_Y - 50)
                             Zombie.basic)) g in
      Game.pushEnemy
        (EZombie (Zombie.new (Boss.x b + Boss.w b + 50) (CONFIG.GROUND_Y - 50)
                    Zombie.basic)) g
    else g in
  (b, g).

(** The phase transition at the head of [Boss.update]. *)
Definition Boss_phaseTransition (b : Boss.t) : Boss.t :=
  let hpPercent := Boss.health b / Boss.maxHealth b in
  if (hpPercent <? 0.5) && (Boss.phase b =? 1)%Z then
    let b := Boss.set_phase 2%Z b in
    let b := Boss.set_zom (Zombie.set_speed 1 (Boss.zom b)) b in
    Boss.set_zom (Zombie.set_attackCooldown 0%Z (Boss.zom b)) b
  else b.

(** [Boss.update] of a live boss up to its last statement: the phase
    transition, the special cooldown, [super.update(player, game)]. *)
Definition Boss_update_base (b : Boss.t) (g : Game.t) : Boss.t * Game.t :=
  (* Phase transition *)
  let b := Boss_phaseTransition b in
  let b :=
    if (Boss.specialCooldown b >? 0)%Z
    then Boss.set_specialCooldown (Boss.specialCooldown b - 1)%Z b
    else b in
  let (z, g) := Zombie_update (Boss.zom b) g in
  (Boss.set_zom z b, g).

(** The test of the last statement, [// Special attack]. *)
Definition Boss_smashTriggered (b : Boss.t) (g : Game.t) : bool :=
  (Boss.specialCooldown b <=? 0)%Z
  && (Qcabs (Player.x (Game.player g) - Boss.x b) <? 100).

Definition Boss_update (b : Boss.t) (g : Game.t) : Boss.t * Game.t :=
  if Boss.dead b then (b, g)
  else
    let (b, g) := Boss_update_base b g in
    (* Special attack *)
    if Boss_smashTriggered b g then Boss_groundSmash b g else (b, g).

(** [e.update(this.player, this)], dispatched on the class of [e]. *)
Definition Enemy_update (e : Enemy) (g : Game.t) : Enemy * Game.t :=
  match e with
  | EZombie z => let (z, g) := Zombie_update z g in (EZombie z, g)
  | EBoss b => let (b, g) := Boss_update b g in (EBoss b, g)
  end.

(** *** Game *)

(** [reset()] builds the state of a new session.  The sound log and the
    draw counter belong to the model's environment and are kept. *)
Definition Game_reset (g : Game.t) : Game.t :=
  Game.mk (Player.new 100 (CONFIG.GROUND_Y - 50)) [] [] [] None
    0 1%Z 0%Z 0%Z 0%Z 0%Z 10%Z 0%Z false 0 (Game.state g)
    (Game.sounds g) (Game.draws g).

Definition Game_startGame (g : Game.t) : Game.t :=
  Game.set_state Game.playing (Game_reset g).

Definition Game_nextLevel (g : Game.t) : Game.t :=
  let g := Game.set_level (Game.level g + 1)%Z g in
  let g := Game.on_player
             (fun p => Player.set_ent (Entity.set_x 100 (Player.ent p)) p) g in
  let g := Game.on_player
             (fun p => Player.set_ent
                         (Entity.set_health
                            (Math_min (Player.health p + 30)
                               (Entity.maxHealth (Player.ent p)))
                            (Player.ent p)) p) g in
  let g := Game.set_enemies [] g in
  let g := Game.set_projectiles [] g in
  let g := Game.set_particles [] g in
  let g := Game.set_portal None g in
  let g := Game.set_enemiesSpawned 0%Z g in
  let g := Game.set_bossSpawned false g in
  let g := Game.set_enemiesToSpawn (10 + Game.level g * 3)%Z g in
  let g := Game.set_spawnTimer 0%Z g in
  let g := Game.set_cameraX 0 g in
  Game.set_state Game.playing g.

(** [types[Math.floor(Math.random() * types.length)]]; [Math.random()] is
    in [0, 1), so the index is within the array. *)
Definition Game_spawnTypes (level : Z) : list Zombie.ZType :=
  [Zombie.basic; Zombie.basic; Zombie.fast]
  ++ (if (level >? 1)%Z then [Zombie.tank] else [])
  ++ (if (level >? 2)%Z then [Zombie.ranged] else []).

Definition Game_spawnEnemy (g : Game.t) : Game.t :=
  if (Game.enemiesSpawned g >=? Game.enemiesToSpawn g)%Z then g
  else
    let types := Game_spawnTypes (Game.level g) in
    let (r, g) := Math_random g in
    let type :=
      List.nth (Z.to_nat (Qfloor (r * num (Z.of_nat (List.length types)))))
          types Zombie.basic in
    let (r, g) := Math_random g in
    let spawnRight := r >? 0.5 in
    let (r, g) := Math_random g in
    let x :=
      if spawnRight then Player.x (Game.player g) + 400 + r * 200
      else Math_max 50 (Player.x (Game.player g) - 400 - r * 200) in
    let g := Game.pushEnemy
               (EZombie (Zombie.new x (CONFIG.GROUND_Y - 50) type)) g in
    Game.set_enemiesSpawned (Game.enemiesSpawned g + 1)%Z g.

Definition Game_spawnBoss (g : Game.t) : Game.t :=
  let g := Game.set_bossSpawned true g in
  Game.pushEnemy
    (EBoss (Boss.new (Player.x (Game.player g) + 500) (CONFIG.GROUND_Y - 80)))
    g.

Definition Game_levelComplete (g : Game.t) : Game.t :=
  Game.playSound "levelComplete" (Game.set_state Game.complete g).

Definition Game_gameOver (g : Game.t) : Game.t :=
  Game.playSound "gameOver" (Game.set_state Game.gameover g).

(** The blocks of [Game.update], in source order. *)

(** [// Screen shake decay] *)
Definition Game_update_shake (g : Game.t) : Game.t :=
  let g := if Game.screenShake g >? 0
           then Game.set_screenShake (Game.screenShake g * 0.9) g else g in
  if Game.screenShake g <? 0.5 then Game.set_screenShake 0 g else g.

(** [// Update camera] *)
Definition Game_update_camera (g : Game.t) : Game.t :=
  let targetCameraX := Player.x (Game.player g) - canvasWidth / 3 in
  let g := Game.set_cameraX (Utils.lerp (Game.cameraX g) targetCameraX 0.1) g in
  Game.set_cameraX
    (Utils.clamp (Game.cameraX g) 0 (CONFIG.LEVEL_LENGTH - canvasWidth)) g.

(** [// Spawn enemies]: [this.spawnTimer-- <= 0] compares the old value and
    always decrements. *)
Definition Game_update_spawn (g : Game.t) : Game.t :=
  let old := Game.spawnTimer g in
  let g := Game.set_spawnTimer (old - 1)%Z g in
  if (old <=? 0)%Z && (Game.enemiesSpawned g <? Game.enemiesToSpawn g)%Z then
    let g := Game_spawnEnemy g in
    Game.set_spawnTimer
      (CONFIG.SPAWN_RATE - Z.min (Game.level g * 10) 60)%Z g
  else g.

(** [// Spawn boss] *)
Definition Game_update_boss (g : Game.t) : Game.t :=
  if (Game.enemiesSpawned g >=? Game.enemiesToSpawn g)%Z
     && negb (Game.bossSpawned g)
     && (Z.rem (Game.level g) 3 =? 0)%Z
  then
    match Game.enemies g with
    | [] => Game_spawnBoss g
    | _ :: _ => g
    end
  else g.

Definition is_nil {A : Type} (l : list A) : bool :=
  match l with [] => true | _ :: _ => false end.

Definition is_none {A : Type} (o : option A) : bool :=
  match o with None => true | Some _ => false end.

(** [// Activate portal when all enemies defeated] *)
Definition Game_update_portal (g : Game.t) : Game.t :=
  if (Game.enemiesSpawned g >=? Game.enemiesToSpawn g)%Z
     && is_nil (Game.enemies g)
     && is_none (Game.portal g)
     && negb (Game.bossSpawned g)
  then
    let g := Game.set_portal
               (Some (Portal.new (CONFIG.LEVEL_LENGTH - 150)
                                 (CONFIG.GROUND_Y - 80))) g in
    Game.playSound "portal" g
  else g.

(** [// Update portal] *)
Definition Game_update_portalEntry (g : Game.t) : Game.t :=
  match Game.portal g with
  | Some portal =>
      let portal := Portal.update portal in
      let g := Game.set_portal (Some portal) g in
      (* Check portal entry *)
      if Utils.rectIntersect (Player.getBounds (Game.player g))
                             (Portal.rect portal)
      then Game_levelComplete g else g
  | None => g
  end.

(** [// Update enemies]: the callback of [this.enemies.filter].  It returns
    the enemy when the callback returns [true] and [None] when it returns
    [false]. *)
Definition Game_update_enemy (e : Enemy) (g : Game.t) : option Enemy * Game.t :=
  if negb (Enemy_dead e) then
    let (e, g) := Enemy_update e g in
    (* Check player attack hitting enemy *)
    let '(e, g) :=
      match Player.attackBox (Game.player g) with
      | Some box =>
          if Utils.rectIntersect (AttackBox.rect box) (Enemy_getBounds e) then
            let (hit, e) :=
              Enemy_takeDamage (AttackBox.damage box) (AttackBox.knockback box) e in
            if hit then
              let g := Game.playSound "zombieHit" g in
              let g := Game.set_screenShake 3 g in
              let g := Game.on_player Player.addCombo g in
              let g := Game.set_score
                         (Game.score g + 100 * Player.combo (Game.player g))%Z g in
              let g := Game.set_maxCombo
                         (Z.max (Game.maxCombo g) (Player.combo (Game.player g))) g in
              (* Blood particles *)
              (e, pushParticles 8
                    (fun r1 r2 =>
                       Particle.new
                         (Entity.x (Enemy_ent e) + Entity.w (Enemy_ent e) / 2)
                         (Entity.y (Enemy_ent e) + Entity.h (Enemy_ent e) / 2)
                         ((r1 - 0.5) * 6) ((r2 - 0.5) * 6) "#4a4" 25%Z 4)
                    g)
            else (e, g)
          else (e, g)
      | None => (e, g)
      end in
    (Some e, g)
  else
    let g := Game.set_kills (Game.kills g + 1)%Z g in
    let g := Game.set_score (Game.score g + 50)%Z g in
    (* Death particles *)
    (None, pushParticles 15
             (fun r1 r2 =>
                Particle.new
                  (Entity.x (Enemy_ent e) + Entity.w (Enemy_ent e) / 2)
                  (Entity.y (Enemy_ent e) + Entity.h (Enemy_ent e) / 2)
                  ((r1 - 0.5) * 8) ((r2 - 0.5) * 8) "#2a2" 40%Z 5)
             g).

Definition keep {A : Type} (k : option A) (l : list A) : list A :=
  match k with Some a => a :: l | None => l end.

(** [filter] visits the elements the array had when it was called, in
    order, and builds a new array from the kept ones. *)
Fixpoint Game_filter_enemies (es : list Enemy) (g : Game.t)
  : list Enemy * Game.t :=
  match es with
  | [] => ([], g)
  | e :: es' =>
      let (k, g) := Game_update_enemy e g in
      let (ks, g) := Game_filter_enemies es' g in
      (keep k ks, g)
  end.

(** [this.enemies = this.enemies.filter(...)]: while the callback runs,
    [game.enemies] is still the old array, so what [Boss.groundSmash]
    pushes onto it is replaced, with the rest of the old array, by the
    result of [filter]. *)
Definition Game_update_enemies (g : Game.t) : Game.t :=
  let (ks, g) := Game_filter_enemies (Game.enemies g) g in
  Game.set_enemies ks g.

(** [// Update projectiles]: the callback of [this.projectiles.filter]. *)
Definition Game_update_projectile (p : Projectile.t) (g : Game.t)
  : option Projectile.t * Game.t :=
  let p := Projectile.update p in
  (* Check collision with player *)
  if match Projectile.owner p with OwnerEnemy => true | OwnerPlayer => false end
     && Utils.rectIntersect (Projectile.bounds p)
                            (Player.getBounds (Game.player g))
  then
    let (hit, pl) :=
      Player.takeDamage (Projectile.damage p)
        (if Projectile.vx p >? 0 then 3 else -3) (Game.player g) in
    let g := Game.set_player pl g in
    let g := if hit then Game.playSound "hit" g else g in
    (None, g)
  else
    (* Remove if off screen *)
    (if (Projectile.x p >? Game.cameraX g - 100)
        && (Projectile.x p <? Game.cameraX g + canvasWidth + 100)
     then Some p else None, g).

Fixpoint Game_filter_projectiles (ps : list Projectile.t) (g : Game.t)
  : list Projectile.t * Game.t :=
  match ps with
  | [] => ([], g)
  | p :: ps' =>
      let (k, g) := Game_update_projectile p g in
      let (ks, g) := Game_filter_projectiles ps' g in
      (keep k ks, g)
  end.

Definition Game_update_projectiles (g : Game.t) : Game.t :=
  let (ks, g) := Game_filter_projectiles (Game.projectiles g) g in
  Game.set_projectiles ks g.

(** [// Update particles] *)
Definition Game_update_particles (g : Game.t) : Game.t :=
  Game.set_particles
    (List.filter (fun p => (Particle.life p >? 0)%Z)
       (List.map Particle.update (Game.particles g))) g.

(** [Game.update()], one tick.  The wall-clock reading of [elapsedTime]
    and [updateHUD()] touch nothing the simulation reads. *)
Definition Game_update (input : Input.t) (g : Game.t) : Game.t :=
  if negb (Game.is_playing (Game.state g)) then g
  else
    let g := Game_update_shake g in
    (* Update player *)
    let g := Player_update input g in
    let g := Game_update_camera g in
    let g := Game_update_spawn g in
    let g := Game_update_boss g in
    let g := Game_update_portal g in
    let g := Game_update_portalEntry g in
    let g := Game_update_enemies g in
    let g := Game_update_projectiles g in
    let g := Game_update_particles g in
    (* Check game over *)
    if Player.dead (Game.player g) then Game_gameOver g else g.

(** [n] ticks of [Game.update], the input of each tick read from [inputs]. *)
Fixpoint Game_run (inputs : list Input.t) (g : Game.t) : Game.t :=
  match inputs with
  | [] => g
  | i :: rest => Game_run rest (Game_update i g)
  end.

End Simulation.

(** [new Game()]: the constructor sets [state = 'menu'] and calls
    [reset()]. *)
Definition Game_new : Game.t :=
  Game.mk (Player.new 100 (CONFIG.GROUND_Y - 50)) [] [] [] None
    0 1%Z 0%Z 0%Z 0%Z 0%Z 10%Z 0%Z false 0 Game.menu [] O.

(** [pause()], [resume()] and [showMenu()].  [resume] also moves
    [startTime], which only the wall-clock reading of [elapsedTime] uses;
    the rest of these methods is DOM access. *)
Definition Game_pause (g : Game.t) : Game.t :=
  match Game.state g with
  | Game.playing => Game.set_state Game.paused g
  | _ => g
  end.

Definition Game_resume (g : Game.t) : Game.t :=
  match Game.state g with
  | Game.paused => Game.set_state Game.playing g
  | _ => g
  end.

Definition Game_showMenu (g : Game.t) : Game.t := Game.set_state Game.menu g.

(** The letters returned by [calculateRank()]. *)
Inductive Rank : Type := RankS | RankA | RankB | RankC.

Definition Game_calculateRank (g : Game.t) : Rank :=
  let scorePerLevel := 2000 * num (Game.level g) in
  let ratio := num (Game.score g) / scorePerLevel in
  if ratio >=? 1.5 then RankS
  else if ratio >=? 1.2 then RankA
  else if ratio >=? 0.8 then RankB
  else RankC.

(** [Utils.randomRange(min, max)] and [Utils.randomInt(min, max)], given
    the value [r] that their call of [Math.random()] returns. *)
Definition Utils_randomRange (r min max : Qc) : Qc := r * (max - min) + min.

Definition Utils_randomInt (r : Qc) (min max : Z) : Z :=
  (Qfloor (r * num (max - min + 1)) + min)%Z.

(** * Vocabulary of the statements *)

(** The two closed rectangles meet: neither lies strictly beyond the
    other on either axis. *)
Definition closedMeet (r1 r2 : Rect.t) : Prop :=
  Rect.x r2 <= Rect.x r1 + Rect.w r1
  /\ Rect.x r1 <= Rect.x r2 + Rect.w r2
  /\ Rect.y r2 <= Rect.y r1 + Rect.h r1
  /\ Rect.y r1 <= Rect.y r2 + Rect.h r2.

(** The two open rectangles meet. *)
Definition interiorsOverlap (r1 r2 : Rect.t) : Prop :=
  Rect.x r2 < Rect.x r1 + Rect.w r1
  /\ Rect.x r1 < Rect.x r2 + Rect.w r2
  /\ Rect.y r2 < Rect.y r1 + Rect.h r1
  /\ Rect.y r1 < Rect.y r2 + Rect.h r2.

(** The right edge of [r1] is the left edge of [r2], both rectangles have
    positive size and their vertical extents overlap: all they share is a
    segment of that edge. *)
Definition shareRightEdge (r1 r2 : Rect.t) : Prop :=
  0 < Rect.w r1 /\ 0 < Rect.w r2
  /\ Rect.x r1 + Rect.w r1 = Rect.x r2
  /\ Rect.y r2 < Rect.y r1 + Rect.h r1
  /\ Rect.y r1 < Rect.y r2 + Rect.h r2.

(** A reading [f] of the game record that ignores the fields written by
    the cosmetic effects and by damage to the player: the player, the sound
    log, the screen shake, the particles and the count of random draws. *)
Record Frame {A : Type} (f : Game.t -> A) : Prop := {
  frame_player : forall p g, f (Game.set_player p g) = f g;
  frame_sounds : forall l g, f (Game.set_sounds l g) = f g;
  frame_screenShake : forall q g, f (Game.set_screenShake q g) = f g;
  frame_particles : forall l g, f (Game.set_particles l g) = f g;
  frame_draws : forall d g, f (Game.set_draws d g) = f g
}.

(** A reading [f] that, beyond that, ignores everything [Game.update]
    writes outside its spawn, boss and portal blocks: it can only depend on
    the level, the enemy target, the boss flag and the portal. *)
Record PlayFrame {A : Type} (f : Game.t -> A) : Prop := {
  pf_frame : Frame f;
  pf_enemies : forall l g, f (Game.set_enemies l g) = f g;
  pf_projectiles : forall l g, f (Game.set_projectiles l g) = f g;
  pf_cameraX : forall q g, f (Game.set_cameraX q g) = f g;
  pf_score : forall n g, f (Game.set_score n g) = f g;
  pf_kills : forall n g, f (Game.set_kills n g) = f g;
  pf_maxCombo : forall n g, f (Game.set_maxCombo n g) = f g;
  pf_spawnTimer : forall n g, f (Game.set_spawnTimer n g) = f g;
  pf_enemiesSpawned : forall n g, f (Game.set_enemiesSpawned n g) = f g;
  pf_state : forall st g, f (Game.set_state st g) = f g
}.

(** A reading [f] that ignores what the enemy, projectile and particle
    loops of [Game.update] write: the fields of a [Frame], the enemy and
    projectile arrays, the score, the kill count and the best combo. *)
Record LoopFrame {A : Type} (f : Game.t -> A) : Prop := {
  lf_frame : Frame f;
  lf_enemies : forall l g, f (Game.set_enemies l g) = f g;
  lf_projectiles : forall l g, f (Game.set_projectiles l g) = f g;
  lf_score : forall n g, f (Game.set_score n g) = f g;
  lf_kills : forall n g, f (Game.set_kills n g) = f g;
  lf_maxCombo : forall n g, f (Game.set_maxCombo n g) = f g
}.

(** The boss flag and the portal, read together. *)
Definition bossAndPortal (g : Game.t) : bool * option Portal.t :=
  (Game.bossSpawned g, Game.portal g).

(** A reading [h] of a zombie that ignores what [update], [attack],
    [rangedAttack] and [takeDamage] write: the base-class fields, the
    attack cooldown and the state. *)
Record ZFrame {A : Type} (h : Zombie.t -> A) : Prop := {
  zframe_ent : forall e z, h (Zombie.set_ent e z) = h z;
  zframe_attackCooldown : forall c z, h (Zombie.set_attackCooldown c z) = h z;
  zframe_state : forall s z, h (Zombie.set_state s z) = h z
}.

(** What can happen to a boss between its construction and its removal
    from [game.enemies]: an [update] against some state of the game, or a
    call of [takeDamage]. *)
Inductive BossEvent : Type :=
| BossUpdate (g : Game.t)
| BossDamage (amount knockbackX : Qc).

Definition Boss_event (random : nat -> Qc) (ev : BossEvent) (b : Boss.t)
  : Boss.t :=
  match ev with
  | BossUpdate g => fst (Boss_update random b g)
  | BossDamage amount knockbackX => snd (Boss.takeDamage amount knockbackX b)
  end.

Fixpoint Boss_life (random : nat -> Qc) (evs : list BossEvent) (b : Boss.t)
  : Boss.t :=
  match evs with
  | [] => b
  | ev :: rest => Boss_life random rest (Boss_event random ev b)
  end.

(** ** Scenes *)

(** A run of [Math.random()] that always returns 0.75: every spawn lands
    550 to the right of the player, outside every detection range. *)
Definition rnd : nat -> Qc := fun _ => 0.75.

(** The game right after [startGame]: level 1, the player at x = 100. *)
Definition sceneStart : Game.t := Game_startGame Game_new.

(** The same game with the player moved to [px]. *)
Definition playerAt (px : Qc) : Game.t :=
  Game.on_player (fun p => Player.set_ent (Entity.set_x px (Player.ent p)) p)
    sceneStart.

(** The same game with the player holding a block. *)
Definition sceneBlocking : Game.t :=
  Game.on_player (Player.set_blocking true) sceneStart.

(** Only the special button is down. *)
Definition pressSpecial : Input.t :=
  Input.mk false false false true false false 0.

(** Level 3 after its 19 enemies and its boss have been spawned, killed and
    removed from [enemies]. *)
Definition bossLevelCleared : Game.t :=
  Game.mk (Player.new 100 (CONFIG.GROUND_Y - 50)) [] [] [] None
    0 3%Z 4000%Z 20%Z 5%Z 50%Z 19%Z 19%Z true 0 Game.playing [] O.

(** Level 3 at the moment the last of its 19 enemies has been removed. *)
Definition bossLevelQuotaMet : Game.t :=
  Game.mk (Player.new 100 (CONFIG.GROUND_Y - 50)) [] [] [] None
    0 3%Z 3000%Z 19%Z 5%Z 50%Z 19%Z 19%Z false 0 Game.playing [] O.

(** A ranged zombie as constructed, standing 20 to the left of the player
    of [sceneStart]. *)
Definition rangedZombie : Zombie.t := Zombie.new 80 (CONFIG.GROUND_Y - 50) Zombie.ranged.

(** A basic zombie as constructed, facing right, its right edge on the left
    edge of the player of [sceneStart]. *)
Definition basicZombie : Zombie.t := Zombie.new 70 (CONFIG.GROUND_Y - 50) Zombie.basic.

(** A boss as constructed whose health has come down to 151, and the same
    boss after a hit of 2. *)
Definition boss151 : Boss.t :=
  Boss.on_ent (Entity.set_health 151) (Boss.new 1000 (CONFIG.GROUND_Y - 80)).

Definition boss149 : Boss.t := snd (Boss.takeDamage 2 0 boss151).

(** A boss as constructed, one walking step short of x = 1000. *)
Definition bossNear : Boss.t := Boss.new 999.52 (CONFIG.GROUND_Y - 80).

(** The same boss in phase 2, and a game at level 3 in which it is the
    only enemy, the player standing 50 to its right. *)
Definition bossPhase2 : Boss.t :=
  Boss.set_phase 2%Z
    (Boss.on_ent (Entity.set_health 100)
       (Boss.set_zom (Zombie.set_speed 1 (Boss.zom bossNear)) bossNear)).

Definition bossFight : Game.t :=
  Game.set_enemies [EBoss bossPhase2]
    (Game.on_player
       (fun p => Player.set_ent (Entity.set_x 1050 (Player.ent p)) p)
       bossLevelCleared).

(** * Tactics *)

(** Projections through setters, without unfolding the methods. *)
Ltac proj :=
  cbn [Entity.x Entity.set_x Entity.y Entity.set_y Entity.w Entity.set_w
       Entity.h Entity.set_h Entity.vx Entity.set_vx Entity.vy Entity.set_vy
       Entity.facing Entity.set_facing Entity.grounded Entity.set_grounded
       Entity.dead Entity.set_dead Entity.invincible Entity.set_invincible
       Entity.animFrame Entity.set_animFrame Entity.animTimer
       Entity.set_animTimer Entity.health Entity.set_health Entity.maxHealth
       Entity.set_maxHealth Player.ent Player.set_ent Player.maxEnergy
       Player.set_maxEnergy Player.energy Player.set_energy Player.combo
       Player.set_combo Player.comboTimer Player.set_comboTimer Player.state
       Player.set_state Player.punchCount Player.set_punchCount
       Player.punchTimer Player.set_punchTimer Player.blocking
       Player.set_blocking Player.dashing Player.set_dashing Player.dashTimer
       Player.set_dashTimer Player.attackBox Player.set_attackBox
       Player.attackTimer Player.set_attackTimer Zombie.ent Zombie.set_ent
       Zombie.type Zombie.set_type Zombie.speed Zombie.set_speed
       Zombie.damage Zombie.set_damage Zombie.color Zombie.set_color
       Zombie.attackCooldown Zombie.set_attackCooldown Zombie.detectRange
       Zombie.set_detectRange Zombie.attackRange Zombie.set_attackRange
       Zombie.state Zombie.set_state Boss.zom Boss.set_zom Boss.phase
       Boss.set_phase Boss.specialCooldown Boss.set_specialCooldown
       Game.player Game.set_player Game.enemies Game.set_enemies
       Game.projectiles Game.set_projectiles Game.particles
       Game.set_particles Game.portal Game.set_portal Game.cameraX
       Game.set_cameraX Game.level Game.set_level Game.score Game.set_score
       Game.kills Game.set_kills Game.maxCombo Game.set_maxCombo
       Game.spawnTimer Game.set_spawnTimer Game.enemiesToSpawn
       Game.set_enemiesToSpawn Game.enemiesSpawned Game.set_enemiesSpawned
       Game.bossSpawned Game.set_bossSpawned Game.screenShake
       Game.set_screenShake Game.state Game.set_state Game.sounds
       Game.set_sounds Game.draws Game.set_draws Game.playSound
       Game.on_player Game.pushParticle Game.pushProjectile Game.pushEnemy
       Zombie.on_ent Boss.on_ent fst snd].

Ltac proj_in H :=
  cbn [Entity.x Entity.set_x Entity.y Entity.set_y Entity.w Entity.set_w
       Entity.h Entity.set_h Entity.vx Entity.set_vx Entity.vy Entity.set_vy
       Entity.facing Entity.set_facing Entity.grounded Entity.set_grounded
       Entity.dead Entity.set_dead Entity.invincible Entity.set_invincible
       Entity.animFrame Entity.set_animFrame Entity.animTimer
       Entity.set_animTimer Entity.health Entity.set_health Entity.maxHealth
       Entity.set_maxHealth Player.ent Player.set_ent Player.maxEnergy
       Player.set_maxEnergy Player.energy Player.set_energy Player.combo
       Player.set_combo Player.comboTimer Player.set_comboTimer Player.state
       Player.set_state Player.punchCount Player.set_punchCount
       Player.punchTimer Player.set_punchTimer Player.blocking
       Player.set_blocking Player.dashing Player.set_dashing Player.dashTimer
       Player.set_dashTimer Player.attackBox Player.set_attackBox
       Player.attackTimer Player.set_attackTimer Zombie.ent Zombie.set_ent
       Zombie.type Zombie.set_type Zombie.speed Zombie.set_speed
       Zombie.damage Zombie.set_damage Zombie.color Zombie.set_color
       Zombie.attackCooldown Zombie.set_attackCooldown Zombie.detectRange
       Zombie.set_detectRange Zombie.attackRange Zombie.set_attackRange
       Zombie.state Zombie.set_state Boss.zom Boss.set_zom Boss.phase
       Boss.set_phase Boss.specialCooldown Boss.set_specialCooldown
       Game.player Game.set_player Game.enemies Game.set_enemies
       Game.projectiles Game.set_projectiles Game.particles
       Game.set_particles Game.portal Game.set_portal Game.cameraX
       Game.set_cameraX Game.level Game.set_level Game.score Game.set_score
       Game.kills Game.set_kills Game.maxCombo Game.set_maxCombo
       Game.spawnTimer Game.set_spawnTimer Game.enemiesToSpawn
       Game.set_enemiesToSpawn Game.enemiesSpawned Game.set_enemiesSpawned
       Game.bossSpawned Game.set_bossSpawned Game.screenShake
       Game.set_screenShake Game.state Game.set_state Game.sounds
       Game.set_sounds Game.draws Game.set_draws Game.playSound
       Game.on_player Game.pushParticle Game.pushProjectile Game.pushEnemy
       Zombie.on_ent Boss.on_ent fst snd] in H.

(** Linear arithmetic over [Qc], by way of [Q]. *)
Ltac qc_lra :=
  unfold Qclt, Qcle, Qcdiv, Qcminus, Qcplus, Qcopp, Qcmult, Q2Qc in *;
  cbn [this] in *;
  repeat rewrite Qred_correct in *;
  lra.


(** * Properties *)

(** ** Comparisons *)

Lemma Qcltb_lt (a b : Qc) : (a <? b) = true <-> a < b.
Proof.
  unfold Qcltb, Qclt. rewrite negb_true_iff. split; intro H.
  - apply Qnot_le_lt. intro L. apply Qle_bool_iff in L. congruence.
  - destruct (Qle_bool b a) eqn:E; [|reflexivity].
    apply Qle_bool_iff in E. exfalso. exact (Qlt_not_le _ _ H E).
Qed.

Lemma Qcltb_ge (a b : Qc) : (a <? b) = false <-> b <= a.
Proof.
  unfold Qcltb, Qcle. rewrite negb_false_iff. apply Qle_bool_iff.
Qed.

Lemma Qcleb_le (a b : Qc) : (a <=? b) = true <-> a <= b.
Proof. unfold Qcleb, Qcle. apply Qle_bool_iff. Qed.

Lemma Qcleb_gt (a b : Qc) : (a <=? b) = false <-> b < a.
Proof.
  unfold Qcleb, Qclt. split; intro H.
  - apply Qnot_le_lt. intro L. apply Qle_bool_iff in L. congruence.
  - destruct (Qle_bool a b) eqn:E; [|reflexivity].
    apply Qle_bool_iff in E. exfalso. exact (Qlt_not_le _ _ H E).
Qed.

(** ** [Utils.rectIntersect] *)

Lemma rectIntersect_closedMeet (r1 r2 : Rect.t) :
  Utils.rectIntersect r1 r2 = true <-> closedMeet r1 r2.
Proof.
  unfold Utils.rectIntersect, closedMeet.
  rewrite negb_true_iff, !orb_false_iff, !Qcltb_ge. tauto.
Qed.

(** C3, as stated, fails: two 10 x 10 squares side by side, the right edge
    of the first on the left edge of the second, are reported as
    intersecting. *)
Lemma rectIntersect_shared_edge_counterexample :
  ~ (forall r1 r2 : Rect.t,
        shareRightEdge r1 r2 -> Utils.rectIntersect r1 r2 = false).
Proof.
  intro H.
  specialize (H (Rect.mk 0 0 10 10) (Rect.mk 10 0 10 10)).
  assert (S : shareRightEdge (Rect.mk 0 0 10 10) (Rect.mk 10 0 10 10)).
  { unfold shareRightEdge; cbn [Rect.x Rect.y Rect.w Rect.h].
    repeat split; reflexivity. }
  specialize (H S). vm_compute in H. discriminate.
Qed.

(** C3, amended: [rectIntersect] is the test that the closed rectangles
    meet.  It answers [false] exactly when one rectangle lies strictly
    beyond the other on some axis; rectangles that share only a boundary
    edge are reported as intersecting, and so are all rectangles whose
    interiors overlap. *)
Theorem rectIntersect_spec (r1 r2 : Rect.t) :
  (Utils.rectIntersect r1 r2 = true <-> closedMeet r1 r2)
  /\ (Utils.rectIntersect r1 r2 = false <->
        (Rect.x r1 + Rect.w r1 < Rect.x r2
         \/ Rect.x r2 + Rect.w r2 < Rect.x r1
         \/ Rect.y r1 + Rect.h r1 < Rect.y r2
         \/ Rect.y r2 + Rect.h r2 < Rect.y r1))
  /\ (shareRightEdge r1 r2 -> Utils.rectIntersect r1 r2 = true)
  /\ (interiorsOverlap r1 r2 -> Utils.rectIntersect r1 r2 = true).
Proof.
  split; [apply rectIntersect_closedMeet|].
  split.
  { unfold Utils.rectIntersect.
    rewrite negb_false_iff, !orb_true_iff, !Qcltb_lt. tauto. }
  split; intro H; apply rectIntersect_closedMeet;
    unfold shareRightEdge, interiorsOverlap, closedMeet in *.
  - destruct H as (W1 & W2 & E & Y1 & Y2). rewrite E.
    repeat split; try (now apply Qclt_le_weak); try apply Qcle_refl.
    rewrite <- E.
    apply Qcle_trans with (Rect.x r1 + Rect.w r1);
      [| rewrite E; apply Qclt_le_weak].
    + apply Qclt_le_weak. qc_lra.
    + qc_lra.
  - destruct H as (A & B & C & D).
    repeat split; now apply Qclt_le_weak.
Qed.

(** ** [Entity.takeDamage] *)

Lemma Entity_takeDamage_invincible (amount knockbackX : Qc) (e : Entity.t) :
  (Entity.invincible e > 0)%Z ->
  Entity.takeDamage amount knockbackX e = (false, e).
Proof.
  intro H. unfold Entity.takeDamage.
  destruct (Z.gtb_spec (Entity.invincible e) 0); [reflexivity | lia].
Qed.

Lemma Entity_takeDamage_vulnerable (amount knockbackX : Qc) (e : Entity.t) :
  (Entity.invincible e <= 0)%Z ->
  Entity.takeDamage amount knockbackX e =
    (true,
     Entity.mk (Entity.x e) (Entity.y e) (Entity.w e) (Entity.h e)
       knockbackX (-3) (Entity.facing e) (Entity.grounded e)
       (if Entity.health e - amount <=? 0 then true else Entity.dead e)
       CONFIG.INVINCIBILITY_DURATION (Entity.animFrame e) (Entity.animTimer e)
       (Entity.health e - amount) (Entity.maxHealth e)).
Proof.
  intro H. unfold Entity.takeDamage.
  destruct (Z.gtb_spec (Entity.invincible e) 0); [lia|].
  cbn. destruct (Entity.health e - amount <=? 0); reflexivity.
Qed.

(** C4: [takeDamage(amount, knockbackX)] on any actor.  While the
    invincibility counter is positive the call returns [false] and leaves
    every field as it was.  Otherwise it returns [true]; health has lost
    [amount], [vx] is [knockbackX], [vy] is [-3], the invincibility counter
    is [INVINCIBILITY_DURATION], which is 30, [dead] is written (to [true])
    exactly when the new health is at most 0, and the other base fields
    are unchanged.  [Player] inherits the method; [Zombie] (and with it
    [Boss]) wraps it and only adds [state = 'hurt'] on success. *)
Theorem Entity_takeDamage_spec (amount knockbackX : Qc) (e : Entity.t) :
  ((Entity.invincible e > 0)%Z ->
     Entity.takeDamage amount knockbackX e = (false, e))
  /\ ((Entity.invincible e <= 0)%Z ->
        Entity.takeDamage amount knockbackX e =
          (true,
           Entity.mk (Entity.x e) (Entity.y e) (Entity.w e) (Entity.h e)
             knockbackX (-3) (Entity.facing e) (Entity.grounded e)
             (if Entity.health e - amount <=? 0 then true else Entity.dead e)
             30%Z (Entity.animFrame e) (Entity.animTimer e)
             (Entity.health e - amount) (Entity.maxHealth e))
        /\ (Entity.dead e = false ->
            (Entity.dead (snd (Entity.takeDamage amount knockbackX e)) = true
             <-> Entity.health e - amount <= 0)))
  /\ (forall p : Player.t,
        Player.ent p = e ->
        Player.takeDamage amount knockbackX p =
          (fst (Entity.takeDamage amount knockbackX e),
           Player.set_ent (snd (Entity.takeDamage amount knockbackX e)) p))
  /\ (forall z : Zombie.t,
        Zombie.ent z = e ->
        Zombie.takeDamage amount knockbackX z =
          (fst (Entity.takeDamage amount knockbackX e),
           if fst (Entity.takeDamage amount knockbackX e)
           then Zombie.set_state Zombie.Hurt
                  (Zombie.set_ent (snd (Entity.takeDamage amount knockbackX e)) z)
           else z)).
Proof.
  split; [apply Entity_takeDamage_invincible|].
  split.
  { intro H. split; [apply Entity_takeDamage_vulnerable; exact H|].
    intro D. rewrite (Entity_takeDamage_vulnerable _ _ _ H). cbn.
    rewrite D. destruct (Entity.health e - amount <=? 0) eqn:L.
    - apply Qcleb_le in L. tauto.
    - apply Qcleb_gt in L. split; [discriminate|].
      intro L'. exfalso. exact (Qclt_not_le _ _ L L'). }
  split.
  - intros p <-. unfold Player.takeDamage.
    destruct (Entity.takeDamage amount knockbackX (Player.ent p)); reflexivity.
  - intros z <-. unfold Zombie.takeDamage.
    destruct (Z_lt_le_dec 0 (Entity.invincible (Zombie.ent z))) as [I|I].
    + rewrite Entity_takeDamage_invincible by lia. cbn. destruct z; reflexivity.
    + rewrite Entity_takeDamage_vulnerable by lia. reflexivity.
Qed.

(** C5, as stated, fails: [takeDamage] does not read [dead].  A dead actor
    whose invincibility counter is 0 is damaged like a live one. *)
Lemma takeDamage_dead_counterexample :
  ~ (forall (amount knockbackX : Qc) (e : Entity.t),
        Entity.dead e = true ->
        Entity.takeDamage amount knockbackX e = (false, e)).
Proof.
  intro H.
  specialize (H 10 5 (Entity.set_dead true (Entity.new 0 330 30 50)) eq_refl).
  vm_compute in H. discriminate.
Qed.

(** C5, amended: the only guard of [takeDamage] is the invincibility
    counter.  A dead actor whose counter is positive is left untouched and
    the call returns [false]; every successful call, the lethal one
    included, sets the counter to 30, so the call that follows it is such a
    no-op; a dead actor whose counter is 0 is damaged like a live one. *)
Theorem takeDamage_dead_guard (amount knockbackX : Qc) (e : Entity.t) :
  (Entity.dead e = true -> (Entity.invincible e > 0)%Z ->
     Entity.takeDamage amount knockbackX e = (false, e))
  /\ (forall e' : Entity.t,
        Entity.takeDamage amount knockbackX e = (true, e') ->
        Entity.invincible e' = 30%Z
        /\ forall amount' knockbackX' : Qc,
             Entity.takeDamage amount' knockbackX' e' = (false, e'))
  /\ (Entity.dead e = true -> (Entity.invincible e <= 0)%Z ->
        fst (Entity.takeDamage amount knockbackX e) = true
        /\ Entity.health (snd (Entity.takeDamage amount knockbackX e))
           = Entity.health e - amount).
Proof.
  split; [intros _; apply Entity_takeDamage_invincible|].
  split.
  - intros e' H.
    destruct (Z_lt_le_dec 0 (Entity.invincible e)) as [I|I].
    + rewrite Entity_takeDamage_invincible in H by lia. discriminate.
    + rewrite Entity_takeDamage_vulnerable in H by lia.
      injection H as <-. split; [reflexivity|].
      intros a k. apply Entity_takeDamage_invincible. cbn.
      unfold CONFIG.INVINCIBILITY_DURATION. lia.
  - intros _ I. rewrite Entity_takeDamage_vulnerable by exact I.
    split; reflexivity.
Qed.

(** ** Frame properties of the particle loop *)

Section Properties.

Variable random : nat -> Qc.
Variable canvasWidth : Qc.

(** The loop only appends particles and counts its draws: any reading of
    the game that ignores those two fields is unchanged. *)
Lemma pushParticles_frame {A : Type} (f : Game.t -> A) :
  (forall d g, f (Game.set_draws d g) = f g) ->
  (forall p g, f (Game.pushParticle p g) = f g) ->
  forall (n : nat) (make : Qc -> Qc -> Particle.t) (g : Game.t),
    f (pushParticles random n make g) = f g.
Proof.
  intros Hd Hp n make. induction n as [|n IH]; intro g; [reflexivity|].
  cbn [pushParticles]. unfold Math_random.
  rewrite IH, Hp, !Hd. reflexivity.
Qed.

Lemma pushParticles_player n make g :
  Game.player (pushParticles random n make g) = Game.player g.
Proof. apply pushParticles_frame; reflexivity. Qed.

Lemma pushParticles_enemies n make g :
  Game.enemies (pushParticles random n make g) = Game.enemies g.
Proof. apply pushParticles_frame; reflexivity. Qed.

Lemma pushParticles_screenShake n make g :
  Game.screenShake (pushParticles random n make g) = Game.screenShake g.
Proof. apply pushParticles_frame; reflexivity. Qed.

Lemma pushParticles_sounds n make g :
  Game.sounds (pushParticles random n make g) = Game.sounds g.
Proof. apply pushParticles_frame; reflexivity. Qed.

(** It appends exactly [n] particles. *)
Lemma pushParticles_particles n make g :
  exists ps : list Particle.t,
    List.length ps = n
    /\ Game.particles (pushParticles random n make g) = Game.particles g ++ ps.
Proof.
  revert g. induction n as [|n IH]; intro g.
  - exists []. split; [reflexivity | symmetry; apply app_nil_r].
  - cbn [pushParticles]. unfold Math_random.
    match goal with |- context [pushParticles random n make ?g1] =>
      destruct (IH g1) as (ps & L & E); rewrite E end.
    eexists (_ :: ps). split; [cbn [List.length]; rewrite L; reflexivity|].
    unfold Game.pushParticle. proj. rewrite <- app_assoc. reflexivity.
Qed.

(** ** Damage dealt to the player *)

Lemma Zombie_new_basic (x y : Qc) :
  Zombie.damage (Zombie.new x y Zombie.basic) = 10
  /\ Zombie.attackRange (Zombie.new x y Zombie.basic) = 40
  /\ Zombie.detectRange (Zombie.new x y Zombie.basic) = 200.
Proof. repeat split; reflexivity. Qed.

Lemma Math_floor_block_basic : Math_floor (10 * 0.3) = 3.
Proof. apply Qc_is_canon. reflexivity. Qed.

(** The same product in binary64: [10 * 0.3] is exactly 3 there too, so
    [Math.floor] returns 3. *)
Lemma float_block_basic : (10 * float_0_3 =? 3)%float = true.
Proof. reflexivity. Qed.

(** What [Zombie.attack] does to the player when its hitbox meets the
    player's bounds: one call of [takeDamage], with the damage scaled by 0.3
    and floored if the player is blocking. *)
Lemma Zombie_attack_player (z : Zombie.t) (g : Game.t) :
  Utils.rectIntersect (Zombie_hitbox z) (Player.getBounds (Game.player g)) = true ->
  Game.player (snd (Zombie_attack random z g)) =
    snd (Player.takeDamage
           (if Player.blocking (Game.player g)
            then Math_floor (Zombie.damage z * 0.3) else Zombie.damage z)
           (num (Zombie.facing z) * 3) (Game.player g)).
Proof.
  intro H. unfold Zombie_attack.
  change (Zombie_hitbox (Zombie.set_state Zombie.Attack
                           (Zombie.set_attackCooldown 60%Z z)))
    with (Zombie_hitbox z).
  change (Zombie.damage (Zombie.set_state Zombie.Attack
                          (Zombie.set_attackCooldown 60%Z z)))
    with (Zombie.damage z).
  change (Zombie.facing (Zombie.set_state Zombie.Attack
                          (Zombie.set_attackCooldown 60%Z z)))
    with (Zombie.facing z).
  rewrite H.
  destruct (Player.blocking (Game.player g));
    change (Game.player (Game.playSound "block" g)) with (Game.player g);
    match goal with |- context [Player.takeDamage ?a ?k ?p] =>
      destruct (Player.takeDamage a k p) as [hit p'] end;
    destruct hit; cbn; rewrite ?pushParticles_player; reflexivity.
Qed.

Lemma Player_takeDamage_health (amount knockbackX : Qc) (p : Player.t) :
  (Entity.invincible (Player.ent p) <= 0)%Z ->
  Player.health (snd (Player.takeDamage amount knockbackX p))
  = Player.health p - amount.
Proof.
  intro H. unfold Player.takeDamage.
  rewrite (Entity_takeDamage_vulnerable _ _ _ H). reflexivity.
Qed.

(** C8: when a basic zombie (damage 10) attacks, its hitbox meets the
    player's bounds and the player is not invincible, a blocking player
    loses [floor(10 * 0.3) = 3] health and a player who is not blocking
    loses the full 10. *)
Theorem Zombie_attack_block_damage (z : Zombie.t) (g : Game.t) :
  Zombie.damage z = 10 ->
  Utils.rectIntersect (Zombie_hitbox z) (Player.getBounds (Game.player g)) = true ->
  (Entity.invincible (Player.ent (Game.player g)) <= 0)%Z ->
  Player.health (Game.player (snd (Zombie_attack random z g)))
  = Player.health (Game.player g)
    - (if Player.blocking (Game.player g) then 3 else 10).
Proof.
  intros D H I. rewrite (Zombie_attack_player _ _ H), D.
  rewrite (Player_takeDamage_health _ _ _ I).
  rewrite Math_floor_block_basic. reflexivity.
Qed.

(** What [Boss.groundSmash] does to the player inside its radius. *)
Lemma Boss_groundSmash_player (b : Boss.t) (g : Game.t) :
  Qcabs (Player.x (Game.player g) - Boss.x b) < 120 ->
  Game.player (snd (Boss_groundSmash random b g)) =
    snd (Player.takeDamage 20
           (num (if Player.x (Game.player g) >? Boss.x b then 1%Z else (-1)%Z) * 8)
           (Game.player g)).
Proof.
  intro H. apply Qcltb_lt in H. unfold Boss_groundSmash.
  change (Boss.x (Boss.set_specialCooldown 180%Z b)) with (Boss.x b).
  rewrite H.
  match goal with |- context [Player.takeDamage ?a ?k ?p] =>
    destruct (Player.takeDamage a k p) as [hit p'] end.
  match goal with |- context [pushParticles random ?n ?m ?g0] =>
    pose proof (pushParticles_player n m g0) as EP;
    generalize dependent (pushParticles random n m g0); intros P EP end.
  destruct (Boss.phase (Boss.set_specialCooldown 180%Z b) =? 2)%Z;
    proj; rewrite EP; reflexivity.
Qed.

(** What the projectile callback does to the player on a hit. *)
Lemma Game_update_projectile_player (p : Projectile.t) (g : Game.t) :
  Projectile.owner p = OwnerEnemy ->
  Utils.rectIntersect (Projectile.bounds (Projectile.update p))
                      (Player.getBounds (Game.player g)) = true ->
  fst (Game_update_projectile canvasWidth p g) = None
  /\ Game.player (snd (Game_update_projectile canvasWidth p g)) =
       snd (Player.takeDamage (Projectile.damage p)
              (if Projectile.vx p >? 0 then 3 else -3) (Game.player g)).
Proof.
  intros O H. unfold Game_update_projectile.
  change (Projectile.owner (Projectile.update p)) with (Projectile.owner p).
  rewrite O, H. cbn -[Player.takeDamage].
  match goal with |- context [Player.takeDamage ?a ?k ?q] =>
    destruct (Player.takeDamage a k q) as [hit p'] end.
  destruct hit; split; reflexivity.
Qed.

(** C10: the two other sources of player damage never look at
    [player.blocking].  [Boss.groundSmash] passes 20 to [takeDamage] and a
    hitting enemy projectile passes its own [damage]; a blocking player who
    is not invincible loses exactly that much.  The factor 0.3 and the
    floor appear only in [Zombie.attack]. *)
Theorem block_mitigation_only_in_melee :
  (forall (b : Boss.t) (g : Game.t),
      Qcabs (Player.x (Game.player g) - Boss.x b) < 120 ->
      Game.player (snd (Boss_groundSmash random b g)) =
        snd (Player.takeDamage 20
               (num (if Player.x (Game.player g) >? Boss.x b
                     then 1%Z else (-1)%Z) * 8)
               (Game.player g))
      /\ (Player.blocking (Game.player g) = true ->
          (Entity.invincible (Player.ent (Game.player g)) <= 0)%Z ->
          Player.health (Game.player (snd (Boss_groundSmash random b g)))
          = Player.health (Game.player g) - 20))
  /\ (forall (p : Projectile.t) (g : Game.t),
        Projectile.owner p = OwnerEnemy ->
        Utils.rectIntersect (Projectile.bounds (Projectile.update p))
                            (Player.getBounds (Game.player g)) = true ->
        Game.player (snd (Game_update_projectile canvasWidth p g)) =
          snd (Player.takeDamage (Projectile.damage p)
                 (if Projectile.vx p >? 0 then 3 else -3) (Game.player g))
        /\ (Player.blocking (Game.player g) = true ->
            (Entity.invincible (Player.ent (Game.player g)) <= 0)%Z ->
            Player.health (Game.player (snd (Game_update_projectile canvasWidth p g)))
            = Player.health (Game.player g) - Projectile.damage p))
  /\ (forall (z : Zombie.t) (g : Game.t),
        Utils.rectIntersect (Zombie_hitbox z)
                            (Player.getBounds (Game.player g)) = true ->
        Game.player (snd (Zombie_attack random z g)) =
          snd (Player.takeDamage
                 (if Player.blocking (Game.player g)
                  then Math_floor (Zombie.damage z * 0.3) else Zombie.damage z)
                 (num (Zombie.facing z) * 3) (Game.player g))).
Proof.
  split; [|split].
  - intros b g H. split; [apply Boss_groundSmash_player; exact H|].
    intros _ I. rewrite (Boss_groundSmash_player _ _ H).
    apply Player_takeDamage_health; exact I.
  - intros p g O H.
    destruct (Game_update_projectile_player p g O H) as [_ E].
    split; [exact E|]. intros _ I. rewrite E.
    apply Player_takeDamage_health; exact I.
  - intros z g H. apply Zombie_attack_player; exact H.
Qed.

(** ** [Zombie.update]: the ranged attack *)

Lemma Zombie_attack_fst (z : Zombie.t) (g : Game.t) :
  fst (Zombie_attack random z g)
  = Zombie.set_state Zombie.Attack (Zombie.set_attackCooldown 60%Z z).
Proof.
  unfold Zombie_attack.
  destruct (Utils.rectIntersect _ _); [|reflexivity].
  destruct (Player.blocking (Game.player g));
    match goal with |- context [Player.takeDamage ?a ?k ?p] =>
      destruct (Player.takeDamage a k p) as [hit p'] end;
    destruct hit; reflexivity.
Qed.

Lemma Zombie_attack_frame {A : Type} (f : Game.t -> A) (z : Zombie.t) (g : Game.t) :
  Frame f -> f (snd (Zombie_attack random z g)) = f g.
Proof.
  intros [Fp Fs Fk Fq Fd]. unfold Zombie_attack.
  destruct (Utils.rectIntersect _ _); [|reflexivity].
  destruct (Player.blocking (Game.player g));
    match goal with |- context [Player.takeDamage ?a ?k ?p] =>
      destruct (Player.takeDamage a k p) as [hit p'] end;
    destruct hit; cbn [snd];
    rewrite ?pushParticles_frame by (intros; unfold Game.pushParticle; auto);
    unfold Game.playSound; rewrite ?Fk, ?Fs, ?Fp, ?Fs; reflexivity.
Qed.

Lemma Frame_projectiles : Frame Game.projectiles.
Proof. split; reflexivity. Qed.

(** The state of a zombie after the [// AI behavior] block of [update],
    and whether [rangedAttack] then fires. *)
Lemma Zombie_update_projectiles (z : Zombie.t) (g : Game.t) :
  Zombie.attackRange z <= Zombie.detectRange z ->
  Game.projectiles (snd (Zombie_update random z g)) = Game.projectiles g.
Proof.
  intro R. unfold Zombie_update.
  destruct (Zombie.dead z); [reflexivity|].
  set (z1 := if (Zombie.attackCooldown z >? 0)%Z
             then Zombie.set_attackCooldown (Zombie.attackCooldown z - 1)%Z z
             else z).
  assert (R1 : Zombie.attackRange z1 <= Zombie.detectRange z1)
    by (subst z1; destruct (Zombie.attackCooldown z >? 0)%Z; exact R).
  clearbody z1. clear R z.
  set (d := Qcabs (Player.x (Game.player g) - Zombie.x z1)).
  destruct (d <? Zombie.detectRange z1) eqn:D.
  - destruct (d >? Zombie.attackRange z1) eqn:W.
    + (* walking: the player is beyond the attack range *)
      proj.
      replace (d <? Zombie.attackRange z1) with false; [|symmetry].
      * rewrite andb_false_r. reflexivity.
      * apply Qcltb_ge. apply Qcltb_lt in W. now apply Qclt_le_weak.
    + destruct (Zombie.attackCooldown z1 <=? 0)%Z eqn:C.
      * (* the melee attack runs first and sets the cooldown to 60 *)
        rewrite (surjective_pairing (Zombie_attack random z1 g)).
        rewrite Zombie_attack_fst. proj.
        rewrite andb_false_r.
        apply (Zombie_attack_frame Game.projectiles), Frame_projectiles.
      * proj. rewrite C, andb_false_r. reflexivity.
  - (* outside the detection range, hence outside the attack range *)
    proj.
    replace (d <? Zombie.attackRange z1) with false; [|symmetry].
    + rewrite andb_false_r. reflexivity.
    + apply Qcltb_ge. apply Qcltb_ge in D.
      eapply Qcle_trans; [exact R1 | exact D].
Qed.

(** [update] leaves alone every field of the zombie that is fixed at
    construction. *)
Lemma Zombie_update_zframe {A : Type} (h : Zombie.t -> A) (z : Zombie.t) (g : Game.t) :
  ZFrame h -> h (fst (Zombie_update random z g)) = h z.
Proof.
  intros [He Hc Hs]. unfold Zombie_update.
  destruct (Zombie.dead z); [reflexivity|].
  set (z1 := if (Zombie.attackCooldown z >? 0)%Z
             then Zombie.set_attackCooldown (Zombie.attackCooldown z - 1)%Z z
             else z).
  assert (E1 : h z1 = h z)
    by (subst z1; destruct (Zombie.attackCooldown z >? 0)%Z; auto).
  rewrite <- E1. clearbody z1. clear E1.
  set (d := Qcabs (Player.x (Game.player g) - Zombie.x z1)).
  assert (T : forall zg : Zombie.t * Game.t,
             h (fst zg) = h z1 ->
             h (fst (let '(z2, g2) := zg in
                     let '(z3, g3) :=
                       if Zombie.is_ranged (Zombie.type z2)
                          && (d <? Zombie.attackRange z2)
                          && (Zombie.attackCooldown z2 <=? 0)%Z
                       then Zombie_rangedAttack z2 g2 else (z2, g2) in
                     (Zombie.updateAnimation (Zombie.updatePhysics z3), g3)))
             = h z1).
  { intros [z2 g2] E. cbn [fst] in E. rewrite <- E.
    destruct (Zombie.is_ranged (Zombie.type z2)
              && (d <? Zombie.attackRange z2)
              && (Zombie.attackCooldown z2 <=? 0)%Z);
      unfold Zombie_rangedAttack, Zombie.updateAnimation, Zombie.updatePhysics,
        Zombie.on_ent; cbn [fst]; rewrite ?He, ?Hs, ?Hc; reflexivity. }
  apply T.
  destruct (d <? Zombie.detectRange z1);
    [destruct (d >? Zombie.attackRange z1);
       [|destruct (Zombie.attackCooldown z1 <=? 0)%Z]|];
    rewrite ?Zombie_attack_fst; unfold Zombie.on_ent; cbn [fst];
    rewrite ?Hs, ?He, ?Hc; reflexivity.
Qed.

Lemma ZFrame_attackRange : ZFrame Zombie.attackRange.
Proof. split; reflexivity. Qed.

Lemma ZFrame_detectRange : ZFrame Zombie.detectRange.
Proof. split; reflexivity. Qed.

Lemma ZFrame_speed : ZFrame Zombie.speed.
Proof. split; reflexivity. Qed.

Lemma ZFrame_damage : ZFrame Zombie.damage.
Proof. split; reflexivity. Qed.

Lemma ZFrame_type : ZFrame Zombie.type.
Proof. split; reflexivity. Qed.

Lemma Zombie_takeDamage_zframe {A : Type} (h : Zombie.t -> A)
      (amount knockbackX : Qc) (z : Zombie.t) :
  ZFrame h -> h (snd (Zombie.takeDamage amount knockbackX z)) = h z.
Proof.
  intros [He Hc Hs]. unfold Zombie.takeDamage.
  destruct (Entity.takeDamage amount knockbackX (Zombie.ent z)) as [r e].
  destruct r; cbn [snd]; rewrite ?Hs, ?He; reflexivity.
Qed.

(** C2 fails on the code.  [update] never calls [rangedAttack]: whenever
    the player is strictly inside the attack range and the cooldown has
    elapsed, the melee branch has just run and set the cooldown to 60, and
    everywhere else one of the two conditions is false.  This holds for
    every zombie whose attack range does not exceed its detection range,
    and the constructor gives every zombie, the ranged type included, the
    ranges 40 and 200 (it assigns [attackRange = 40] after [setupType] has
    set 150); [update] and [takeDamage] never change them. *)
Theorem ranged_zombie_never_fires (z : Zombie.t) (g : Game.t) :
  Zombie.attackRange z <= Zombie.detectRange z ->
  Game.projectiles (snd (Zombie_update random z g)) = Game.projectiles g
  /\ Zombie.attackRange (fst (Zombie_update random z g))
     <= Zombie.detectRange (fst (Zombie_update random z g))
  /\ (forall (x y : Qc) (ty : Zombie.ZType),
        Zombie.attackRange (Zombie.new x y ty) = 40
        /\ Zombie.detectRange (Zombie.new x y ty) = 200).
Proof.
  intro R. split; [apply Zombie_update_projectiles; exact R|]. split.
  - rewrite (Zombie_update_zframe _ _ _ ZFrame_attackRange).
    rewrite (Zombie_update_zframe _ _ _ ZFrame_detectRange). exact R.
  - intros x y ty. split; reflexivity.
Qed.

(** ** [Boss.update]: the phase *)

Lemma Boss_phaseTransition_fires (b : Boss.t) :
  Boss.phase b = 1%Z ->
  Boss.health b / Boss.maxHealth b < 0.5 ->
  Boss.phase (Boss_phaseTransition b) = 2%Z
  /\ Boss.speed (Boss_phaseTransition b) = 1
  /\ Boss.attackCooldown (Boss_phaseTransition b) = 0%Z.
Proof.
  intros P H. apply Qcltb_lt in H. unfold Boss_phaseTransition.
  rewrite H, P. repeat split; reflexivity.
Qed.

Lemma Boss_phaseTransition_waits (b : Boss.t) :
  ~ Boss.health b / Boss.maxHealth b < 0.5 ->
  Boss_phaseTransition b = b.
Proof.
  intro H. unfold Boss_phaseTransition.
  destruct (Boss.health b / Boss.maxHealth b <? 0.5) eqn:E; [|reflexivity].
  apply Qcltb_lt in E. contradiction.
Qed.

Lemma Boss_phaseTransition_phase2 (b : Boss.t) :
  Boss.phase b = 2%Z -> Boss_phaseTransition b = b.
Proof.
  intro P. unfold Boss_phaseTransition. rewrite P, andb_false_r. reflexivity.
Qed.

Lemma Boss_groundSmash_fst (b : Boss.t) (g : Game.t) :
  fst (Boss_groundSmash random b g) = Boss.set_specialCooldown 180%Z b.
Proof. reflexivity. Qed.

Lemma Boss_update_base_fst (b : Boss.t) (g : Game.t) :
  exists (c : Z) (z : Zombie.t),
    fst (Boss_update_base random b g)
    = Boss.set_zom z (Boss.set_specialCooldown c (Boss_phaseTransition b))
    /\ z = fst (Zombie_update random (Boss.zom (Boss_phaseTransition b)) g).
Proof.
  unfold Boss_update_base.
  destruct (Boss.specialCooldown (Boss_phaseTransition b) >? 0)%Z.
  - eexists _, _. proj.
    rewrite (surjective_pairing (Zombie_update random _ g)). proj.
    split; reflexivity.
  - exists (Boss.specialCooldown (Boss_phaseTransition b)).
    eexists. rewrite (surjective_pairing (Zombie_update random _ g)). proj.
    split; [|reflexivity]. destruct (Boss_phaseTransition b); reflexivity.
Qed.

Lemma Boss_update_fst (b : Boss.t) (g : Game.t) :
  Boss.dead b = false ->
  exists (c : Z) (z : Zombie.t),
    fst (Boss_update random b g)
    = Boss.set_zom z (Boss.set_specialCooldown c (Boss_phaseTransition b))
    /\ z = fst (Zombie_update random (Boss.zom (Boss_phaseTransition b)) g).
Proof.
  intro D. unfold Boss_update. rewrite D.
  destruct (Boss_update_base_fst b g) as (c & z & E & Ez).
  rewrite (surjective_pairing (Boss_update_base random b g)).
  destruct (Boss_smashTriggered _ _).
  - rewrite Boss_groundSmash_fst, E. exists 180%Z, z. split; [reflexivity|exact Ez].
  - exists c, z. split; [exact E | exact Ez].
Qed.

Lemma Boss_update_phase (b : Boss.t) (g : Game.t) :
  Boss.phase (fst (Boss_update random b g))
  = if Boss.dead b then Boss.phase b else Boss.phase (Boss_phaseTransition b).
Proof.
  destruct (Boss.dead b) eqn:D.
  - unfold Boss_update. rewrite D. reflexivity.
  - destruct (Boss_update_fst b g D) as (c & z & -> & _). reflexivity.
Qed.

Lemma Boss_update_speed (b : Boss.t) (g : Game.t) :
  Boss.dead b = false ->
  Boss.speed (fst (Boss_update random b g)) = Boss.speed (Boss_phaseTransition b).
Proof.
  intro D. destruct (Boss_update_fst b g D) as (c & z & -> & ->).
  unfold Boss.speed. proj.
  apply (Zombie_update_zframe Zombie.speed), ZFrame_speed.
Qed.

Lemma Boss_event_phase2 (ev : BossEvent) (b : Boss.t) :
  Boss.phase b = 2%Z -> Boss.phase (Boss_event random ev b) = 2%Z.
Proof.
  intro P. destruct ev as [g | amount knockbackX]; cbn [Boss_event].
  - rewrite Boss_update_phase, (Boss_phaseTransition_phase2 _ P).
    destruct (Boss.dead b); exact P.
  - unfold Boss.takeDamage.
    destruct (Zombie.takeDamage amount knockbackX (Boss.zom b)). exact P.
Qed.

Lemma Boss_life_phase2 (evs : list BossEvent) (b : Boss.t) :
  Boss.phase b = 2%Z -> Boss.phase (Boss_life random evs b) = 2%Z.
Proof.
  revert b. induction evs as [|ev evs IH]; intros b P; [exact P|].
  cbn [Boss_life]. apply IH, Boss_event_phase2, P.
Qed.

(** C6: on an [update] tick of a live boss in phase 1 ([Game.update] calls
    [update] only on enemies that are not dead), the phase becomes 2
    exactly when [health / maxHealth < 0.5]; the transition sets the speed
    to 1 and the attack cooldown to 0 before the base update runs.  From
    phase 2 no sequence of [update] and [takeDamage] calls leaves phase 2. *)
Theorem Boss_phase_transition (b : Boss.t) (g : Game.t) :
  Boss.dead b = false ->
  (Boss.phase b = 1%Z ->
     (Boss.health b / Boss.maxHealth b < 0.5 ->
        Boss.phase (fst (Boss_update random b g)) = 2%Z
        /\ Boss.speed (fst (Boss_update random b g)) = 1
        /\ Boss.attackCooldown (Boss_phaseTransition b) = 0%Z)
     /\ (~ Boss.health b / Boss.maxHealth b < 0.5 ->
         Boss.phase (fst (Boss_update random b g)) = 1%Z
         /\ Boss.speed (fst (Boss_update random b g)) = Boss.speed b))
  /\ (Boss.phase b = 2%Z ->
      forall evs : list BossEvent,
        Boss.phase (Boss_life random (BossUpdate g :: evs) b) = 2%Z).
Proof.
  intro D. split.
  - intro P. split; intro H.
    + destruct (Boss_phaseTransition_fires b P H) as (P2 & S & C).
      rewrite Boss_update_phase, D, (Boss_update_speed _ _ D). auto.
    + rewrite Boss_update_phase, D, (Boss_update_speed _ _ D).
      rewrite (Boss_phaseTransition_waits _ H). auto.
  - intros P evs. apply Boss_life_phase2, P.
Qed.

(** [update] of a live zombie whose cooldown has elapsed, with the player
    inside the detection range and beyond the attack range: it turns to
    the player and walks. *)
Lemma Zombie_update_walk (z : Zombie.t) (g : Game.t) :
  Zombie.dead z = false ->
  Zombie.attackCooldown z = 0%Z ->
  Zombie.is_ranged (Zombie.type z) = false ->
  Qcabs (Player.x (Game.player g) - Zombie.x z) < Zombie.detectRange z ->
  Zombie.attackRange z < Qcabs (Player.x (Game.player g) - Zombie.x z) ->
  Zombie_update random z g
  = (let zf := Zombie.on_ent
                 (Entity.set_facing
                    (if Player.x (Game.player g) - Zombie.x z >? 0
                     then 1%Z else (-1)%Z)) z in
     Zombie.updateAnimation
       (Zombie.updatePhysics
          (Zombie.set_state Zombie.Walk
             (Zombie.on_ent
                (Entity.set_vx (num (Zombie.facing zf) * Zombie.speed zf)) zf))),
     g).
Proof.
  intros D C T H1 H2. apply Qcltb_lt in H1. apply Qcltb_lt in H2.
  unfold Zombie_update. rewrite D, C. cbn [Z.gtb Z.compare].
  rewrite H1, H2. proj. rewrite T. reflexivity.
Qed.

(** ** [Boss.groundSmash] *)

(** What a ground smash inside its radius of 120 does to the game. *)
Lemma Boss_groundSmash_effects (b : Boss.t) (g : Game.t) :
  Qcabs (Player.x (Game.player g) - Boss.x b) < 120 ->
  Game.screenShake (snd (Boss_groundSmash random b g)) = 15
  /\ Game.sounds (snd (Boss_groundSmash random b g)) = "hit"%string :: Game.sounds g
  /\ (exists ps : list Particle.t,
         List.length ps = 20%nat
         /\ Game.particles (snd (Boss_groundSmash random b g))
            = Game.particles g ++ ps)
  /\ Game.enemies (snd (Boss_groundSmash random b g))
     = Game.enemies g
       ++ (if (Boss.phase b =? 2)%Z
           then [EZombie (Zombie.new (Boss.x b - 50) (CONFIG.GROUND_Y - 50)
                            Zombie.basic);
                 EZombie (Zombie.new (Boss.x b + Boss.w b + 50)
                            (CONFIG.GROUND_Y - 50) Zombie.basic)]
           else []).
Proof.
  intro H. apply Qcltb_lt in H. unfold Boss_groundSmash.
  change (Boss.x (Boss.set_specialCooldown 180%Z b)) with (Boss.x b).
  change (Boss.w (Boss.set_specialCooldown 180%Z b)) with (Boss.w b).
  change (Boss.phase (Boss.set_specialCooldown 180%Z b)) with (Boss.phase b).
  rewrite H.
  match goal with |- context [Player.takeDamage ?a ?k ?p] =>
    destruct (Player.takeDamage a k p) as [hit p'] end.
  match goal with |- context [pushParticles random ?n ?m ?g0] =>
    pose proof (pushParticles_screenShake n m g0) as E1;
    pose proof (pushParticles_sounds n m g0) as E2;
    pose proof (pushParticles_particles n m g0) as E3;
    pose proof (pushParticles_enemies n m g0) as E4;
    generalize dependent (pushParticles random n m g0); intros P E1 E2 E3 E4 end.
  proj_in E1. proj_in E2. proj_in E3. proj_in E4.
  destruct E3 as (ps & L & E3).
  destruct (Boss.phase b =? 2)%Z; proj; rewrite ?E1, ?E2, ?E4;
    (repeat split; try reflexivity;
     [exists ps; split; [exact L | exact E3]
     | rewrite <- ?app_assoc, ?app_nil_r; reflexivity]).
Qed.

(** C7, amended: a ground smash fires on the [update] tick of a live boss
    whose special cooldown has elapsed while the player is within 100 of
    it.  The damage radius of [groundSmash] is 120, wider than that
    trigger range, so every smash fired by [update] calls
    [takeDamage(20, +-8)] on the player, logs the hit sound and sets the
    screen shake to 15; it appends 20 particles, appends two basic zombies
    to [game.enemies] exactly when the phase is 2, and resets the special
    cooldown to 180. *)
Theorem Boss_update_groundSmash (b : Boss.t) (g : Game.t) :
  Boss.dead b = false ->
  Boss_smashTriggered (fst (Boss_update_base random b g))
                      (snd (Boss_update_base random b g)) = true ->
  let b1 := fst (Boss_update_base random b g) in
  let g1 := snd (Boss_update_base random b g) in
  let g2 := snd (Boss_update random b g) in
  Qcabs (Player.x (Game.player g1) - Boss.x b1) < 100
  /\ Game.player g2 =
       snd (Player.takeDamage 20
              (num (if Player.x (Game.player g1) >? Boss.x b1
                    then 1%Z else (-1)%Z) * 8)
              (Game.player g1))
  /\ Game.screenShake g2 = 15
  /\ Game.sounds g2 = "hit"%string :: Game.sounds g1
  /\ (exists ps : list Particle.t,
         List.length ps = 20%nat
         /\ Game.particles g2 = Game.particles g1 ++ ps)
  /\ Game.enemies g2
     = Game.enemies g1
       ++ (if (Boss.phase b1 =? 2)%Z
           then [EZombie (Zombie.new (Boss.x b1 - 50) (CONFIG.GROUND_Y - 50)
                            Zombie.basic);
                 EZombie (Zombie.new (Boss.x b1 + Boss.w b1 + 50)
                            (CONFIG.GROUND_Y - 50) Zombie.basic)]
           else [])
  /\ Boss.specialCooldown (fst (Boss_update random b g)) = 180%Z.
Proof.
  intros D T b1 g1 g2.
  assert (E : Boss_update random b g = Boss_groundSmash random b1 g1).
  { unfold Boss_update. rewrite D.
    rewrite (surjective_pairing (Boss_update_base random b g)).
    fold b1 g1. change (Boss_smashTriggered b1 g1 = true) in T.
    rewrite T. reflexivity. }
  change (Boss_smashTriggered b1 g1 = true) in T.
  unfold Boss_smashTriggered in T. apply andb_true_iff in T as [_ T].
  apply Qcltb_lt in T.
  assert (T120 : Qcabs (Player.x (Game.player g1) - Boss.x b1) < 120).
  { eapply Qclt_trans; [exact T | reflexivity]. }
  subst g2. rewrite E.
  destruct (Boss_groundSmash_effects b1 g1 T120) as (S1 & S2 & S3 & S4).
  split; [exact T|].
  split; [apply Boss_groundSmash_player; exact T120|].
  repeat (split; [assumption|]).
  rewrite Boss_groundSmash_fst. reflexivity.
Qed.

(** ** What a tick leaves alone *)

Section Frames.

Context {A : Type} (f : Game.t -> A).

Lemma pushParticles_Frame (HF : Frame f) n make g :
  f (pushParticles random n make g) = f g.
Proof.
  apply pushParticles_frame; intros; unfold Game.pushParticle;
    [apply (frame_draws _ HF) | apply (frame_particles _ HF)].
Qed.

(** Rewriting with the equations of a [Frame]. *)
Ltac frame HF :=
  unfold Game.playSound, Game.on_player, Game.pushParticle;
  repeat first
    [ rewrite (pushParticles_Frame HF)
    | rewrite (frame_player _ HF)
    | rewrite (frame_sounds _ HF)
    | rewrite (frame_screenShake _ HF)
    | rewrite (frame_particles _ HF)
    | rewrite (frame_draws _ HF) ];
  try reflexivity.

Lemma Player_special_frame (HF : Frame f) g : f (Player_special random g) = f g.
Proof. unfold Player_special. frame HF. Qed.

Lemma Player_update_act_frame (HF : Frame f) input g :
  f (Player_update_act random input g) = f g.
Proof.
  unfold Player_update_act, Player_update_special, Player_update_dash,
    Player_update_jump.
  repeat match goal with
         | |- context [if ?c then _ else _] =>
             lazymatch c with
             | context [if _ then _ else _] => fail
             | _ => destruct c
             end
         end;
    repeat first [ rewrite Player_special_frame by exact HF | progress frame HF ].
Qed.

Lemma Player_update_frame (HF : Frame f) input g :
  f (Player_update random input g) = f g.
Proof.
  unfold Player_update.
  destruct (Player.dashing _); [frame HF|].
  destruct (Player.blocking _); [frame HF|].
  rewrite Player_update_act_frame by exact HF. frame HF.
Qed.

Lemma Game_update_shake_frame (HF : Frame f) g : f (Game_update_shake g) = f g.
Proof.
  unfold Game_update_shake.
  destruct (Game.screenShake g >? 0);
    match goal with |- context [if ?c then _ else _] => destruct c end;
    frame HF.
Qed.

Lemma Zombie_update_frame (HF : Frame f) z g :
  (forall l g, f (Game.set_projectiles l g) = f g) ->
  f (snd (Zombie_update random z g)) = f g.
Proof.
  intro Hp. unfold Zombie_update.
  destruct (Zombie.dead z); [reflexivity|].
  match goal with |- context [Zombie_attack random ?z1 g] =>
    pose proof (Zombie_attack_frame f z1 g HF) as EA;
    destruct (Zombie_attack random z1 g) as [za ga] end.
  cbn [snd] in EA.
  repeat match goal with
         | |- context [if ?c then _ else _] =>
             lazymatch c with
             | context [if _ then _ else _] => fail
             | _ => destruct c
             end
         end;
    unfold Zombie_rangedAttack, Game.pushProjectile; cbn [snd];
    rewrite ?Hp; auto.
Qed.

Lemma Boss_groundSmash_frame (HF : Frame f) b g :
  (forall l g, f (Game.set_enemies l g) = f g) ->
  f (snd (Boss_groundSmash random b g)) = f g.
Proof.
  intro He. unfold Boss_groundSmash.
  match goal with |- context [pushParticles random ?n ?m ?g0] =>
    pose proof (pushParticles_Frame HF n m g0) as EP;
    assert (E0 : f g0 = f g);
    [| rewrite E0 in EP; clear E0;
       generalize dependent (pushParticles random n m g0); intros P EP ]
  end.
  - destruct (_ <? 120); [|reflexivity].
    match goal with |- context [Player.takeDamage ?a ?k ?p] =>
      destruct (Player.takeDamage a k p) as [hit p'] end.
    frame HF.
  - destruct (Boss.phase _ =? 2)%Z; cbn [snd]; unfold Game.pushEnemy;
      rewrite ?He; exact EP.
Qed.

Lemma Boss_update_frame (HF : PlayFrame f) b g :
  f (snd (Boss_update random b g)) = f g.
Proof.
  unfold Boss_update. destruct (Boss.dead b); [reflexivity|].
  assert (E : f (snd (Boss_update_base random b g)) = f g).
  { unfold Boss_update_base.
    match goal with |- context [Zombie_update random ?z g] =>
      pose proof (Zombie_update_frame (pf_frame _ HF) z g (pf_projectiles _ HF)) as EZ;
      destruct (Zombie_update random z g) as [z' g'] end.
    exact EZ. }
  destruct (Boss_update_base random b g) as [b1 g1]. cbn [snd] in E.
  destruct (Boss_smashTriggered b1 g1); [|exact E].
  rewrite (Boss_groundSmash_frame (pf_frame _ HF) _ _ (pf_enemies _ HF)).
  exact E.
Qed.

Lemma Enemy_update_frame (HF : PlayFrame f) e g :
  f (snd (Enemy_update random e g)) = f g.
Proof.
  destruct e as [z|b]; cbn [Enemy_update].
  - pose proof (Zombie_update_frame (pf_frame _ HF) z g (pf_projectiles _ HF)) as E.
    destruct (Zombie_update random z g). exact E.
  - pose proof (Boss_update_frame HF b g) as E.
    destruct (Boss_update random b g). exact E.
Qed.

(** Rewriting with the equations of a [PlayFrame]. *)
Ltac play HF :=
  unfold Game.playSound, Game.on_player, Game.pushParticle,
    Game.pushProjectile, Game.pushEnemy;
  repeat first
    [ rewrite (pushParticles_Frame (pf_frame _ HF))
    | rewrite (frame_player _ (pf_frame _ HF))
    | rewrite (frame_sounds _ (pf_frame _ HF))
    | rewrite (frame_screenShake _ (pf_frame _ HF))
    | rewrite (frame_particles _ (pf_frame _ HF))
    | rewrite (frame_draws _ (pf_frame _ HF))
    | rewrite (pf_enemies _ HF)
    | rewrite (pf_projectiles _ HF)
    | rewrite (pf_cameraX _ HF)
    | rewrite (pf_score _ HF)
    | rewrite (pf_kills _ HF)
    | rewrite (pf_maxCombo _ HF)
    | rewrite (pf_spawnTimer _ HF)
    | rewrite (pf_enemiesSpawned _ HF)
    | rewrite (pf_state _ HF) ];
  try reflexivity.

Lemma Game_update_enemy_frame (HF : PlayFrame f) e g :
  f (snd (Game_update_enemy random e g)) = f g.
Proof.
  unfold Game_update_enemy.
  destruct (negb (Enemy_dead e)).
  - pose proof (Enemy_update_frame HF e g) as E.
    destruct (Enemy_update random e g) as [e1 g1]. cbn [snd] in E.
    destruct (Player.attackBox (Game.player g1)) as [box|]; [|exact E].
    destruct (Utils.rectIntersect _ _); [|exact E].
    destruct (Enemy_takeDamage _ _ e1) as [hit e2].
    destruct hit; [|exact E].
    cbn [snd]. play HF. exact E.
  - cbn [snd]. play HF.
Qed.

Lemma Game_filter_enemies_frame (HF : PlayFrame f) es g :
  f (snd (Game_filter_enemies random es g)) = f g.
Proof.
  revert g. induction es as [|e es IH]; intro g; [reflexivity|].
  cbn [Game_filter_enemies].
  pose proof (Game_update_enemy_frame HF e g) as E.
  destruct (Game_update_enemy random e g) as [k g1]. cbn [snd] in E.
  specialize (IH g1).
  destruct (Game_filter_enemies random es g1) as [ks g2]. cbn [snd] in *.
  congruence.
Qed.

Lemma Game_update_enemies_frame (HF : PlayFrame f) g :
  f (Game_update_enemies random g) = f g.
Proof.
  unfold Game_update_enemies.
  pose proof (Game_filter_enemies_frame HF (Game.enemies g) g) as E.
  destruct (Game_filter_enemies random (Game.enemies g) g) as [ks g1].
  cbn [snd] in E. play HF. exact E.
Qed.

Lemma Game_update_projectile_frame (HF : PlayFrame f) p g :
  f (snd (Game_update_projectile canvasWidth p g)) = f g.
Proof.
  unfold Game_update_projectile.
  destruct (_ && Utils.rectIntersect _ _); [|reflexivity].
  destruct (Player.takeDamage _ _ _) as [hit pl].
  destruct hit; cbn [snd]; play HF.
Qed.

Lemma Game_filter_projectiles_frame (HF : PlayFrame f) ps g :
  f (snd (Game_filter_projectiles canvasWidth ps g)) = f g.
Proof.
  revert g. induction ps as [|p ps IH]; intro g; [reflexivity|].
  cbn [Game_filter_projectiles].
  pose proof (Game_update_projectile_frame HF p g) as E.
  destruct (Game_update_projectile canvasWidth p g) as [k g1]. cbn [snd] in E.
  specialize (IH g1).
  destruct (Game_filter_projectiles canvasWidth ps g1) as [ks g2].
  cbn [snd] in *. congruence.
Qed.

Lemma Game_update_projectiles_frame (HF : PlayFrame f) g :
  f (Game_update_projectiles canvasWidth g) = f g.
Proof.
  unfold Game_update_projectiles.
  pose proof (Game_filter_projectiles_frame HF (Game.projectiles g) g) as E.
  destruct (Game_filter_projectiles canvasWidth (Game.projectiles g) g) as [ks g1].
  cbn [snd] in E. play HF. exact E.
Qed.

Lemma Game_spawnEnemy_frame (HF : PlayFrame f) g :
  f (Game_spawnEnemy random g) = f g.
Proof.
  unfold Game_spawnEnemy, Math_random.
  destruct (_ >=? _)%Z; [reflexivity|].
  destruct (_ >? 0.5); play HF.
Qed.

Lemma Game_update_spawn_frame (HF : PlayFrame f) g :
  f (Game_update_spawn random g) = f g.
Proof.
  unfold Game_update_spawn.
  destruct (_ && _); play HF.
  rewrite Game_spawnEnemy_frame by exact HF. play HF.
Qed.

(** The blocks of a tick other than [// Spawn boss], [// Activate portal]
    and [// Update portal] leave [f] alone. *)
Lemma Game_update_head_frame (HF : PlayFrame f) input g :
  f (Game_update_spawn random
       (Game_update_camera canvasWidth
          (Player_update random input (Game_update_shake g)))) = f g.
Proof.
  rewrite Game_update_spawn_frame by exact HF.
  unfold Game_update_camera. play HF.
  rewrite Player_update_frame by exact (pf_frame _ HF).
  apply Game_update_shake_frame, (pf_frame _ HF).
Qed.

Lemma Game_update_tail_frame (HF : PlayFrame f) g :
  let g' := Game_update_particles
              (Game_update_projectiles canvasWidth
                 (Game_update_enemies random g)) in
  f (if Player.dead (Game.player g') then Game_gameOver g' else g') = f g.
Proof.
  intro g'.
  assert (E : f g' = f g).
  { subst g'. unfold Game_update_particles. play HF.
    rewrite Game_update_projectiles_frame by exact HF.
    apply Game_update_enemies_frame, HF. }
  destruct (Player.dead (Game.player g')); [|exact E].
  unfold Game_gameOver. play HF. exact E.
Qed.

End Frames.

(** ** The enemy loop *)

(** [filter] returns some of the elements it was called on: the array
    assigned to [this.enemies] at the end of the loop is never longer than
    the one the loop started from, whatever was pushed in between. *)
Lemma Game_filter_enemies_length (es : list Enemy) (g : Game.t) :
  (List.length (fst (Game_filter_enemies random es g)) <= List.length es)%nat.
Proof.
  revert g. induction es as [|e es IH]; intro g; [apply le_n|].
  cbn [Game_filter_enemies].
  destruct (Game_update_enemy random e g) as [k g1].
  specialize (IH g1).
  destruct (Game_filter_enemies random es g1) as [ks g2].
  cbn [fst] in *. destruct k; cbn [keep List.length]; lia.
Qed.

Lemma Game_update_enemies_length (g : Game.t) :
  (List.length (Game.enemies (Game_update_enemies random g))
   <= List.length (Game.enemies g))%nat.
Proof.
  unfold Game_update_enemies.
  pose proof (Game_filter_enemies_length (Game.enemies g) g) as L.
  destruct (Game_filter_enemies random (Game.enemies g) g) as [ks g1].
  exact L.
Qed.

(** A dead enemy is neither updated nor hit again: its [update] returns at
    once, and the loop drops it on the next tick without calling
    [takeDamage]. *)
Lemma Zombie_update_dead (z : Zombie.t) (g : Game.t) :
  Zombie.dead z = true -> Zombie_update random z g = (z, g).
Proof. intro D. unfold Zombie_update. rewrite D. reflexivity. Qed.

Lemma Boss_update_dead (b : Boss.t) (g : Game.t) :
  Boss.dead b = true -> Boss_update random b g = (b, g).
Proof. intro D. unfold Boss_update. rewrite D. reflexivity. Qed.

Lemma Game_update_enemy_dead (e : Enemy) (g : Game.t) :
  Enemy_dead e = true -> fst (Game_update_enemy random e g) = None.
Proof. intro D. unfold Game_update_enemy. rewrite D. reflexivity. Qed.

(** ** The portal *)

Lemma PlayFrame_bossAndPortal : PlayFrame bossAndPortal.
Proof. constructor; [constructor|..]; reflexivity. Qed.

Lemma Game_update_boss_spawned (g : Game.t) :
  Game.bossSpawned g = true -> Game_update_boss g = g.
Proof.
  intro B. unfold Game_update_boss. rewrite B.
  cbn [negb]. rewrite andb_false_r. reflexivity.
Qed.

Lemma Game_update_portal_spawned (g : Game.t) :
  Game.bossSpawned g = true -> Game_update_portal g = g.
Proof.
  intro B. unfold Game_update_portal. rewrite B.
  cbn [negb]. rewrite andb_false_r. reflexivity.
Qed.

Lemma Game_update_portalEntry_none (g : Game.t) :
  Game.portal g = None -> Game_update_portalEntry g = g.
Proof. intro P. unfold Game_update_portalEntry. rewrite P. reflexivity. Qed.

(** The portal block opens the portal when the target is reached, no
    enemy is left, there is no portal yet and no boss was spawned on this
    level. *)
Lemma Game_update_portal_opens (g : Game.t) :
  (Game.enemiesSpawned g >= Game.enemiesToSpawn g)%Z ->
  Game.enemies g = [] ->
  Game.portal g = None ->
  Game.bossSpawned g = false ->
  Game_update_portal g
  = Game.playSound "portal"
      (Game.set_portal
         (Some (Portal.new (CONFIG.LEVEL_LENGTH - 150) (CONFIG.GROUND_Y - 80)))
         g).
Proof.
  intros Q E P B. unfold Game_update_portal. rewrite E, P, B.
  replace (Game.enemiesSpawned g >=? Game.enemiesToSpawn g)%Z with true;
    [reflexivity|].
  symmetry. apply Z.geb_le. lia.
Qed.

(** With a portal in place the block does nothing: it opens one portal. *)
Lemma Game_update_portal_once (g : Game.t) (portal : Portal.t) :
  Game.portal g = Some portal -> Game_update_portal g = g.
Proof.
  intro P. unfold Game_update_portal. rewrite P.
  cbn [is_none]. rewrite andb_false_r. reflexivity.
Qed.

(** On a level whose index is not a multiple of 3 the boss block does
    nothing, so the flag stays down and the portal block decides alone. *)
Lemma Game_update_boss_other_level (g : Game.t) :
  Z.rem (Game.level g) 3 <> 0%Z -> Game_update_boss g = g.
Proof.
  intro L. unfold Game_update_boss.
  replace (Z.rem (Game.level g) 3 =? 0)%Z with false
    by (symmetry; apply Z.eqb_neq; exact L).
  rewrite andb_false_r. reflexivity.
Qed.

(** On a level whose index is a multiple of 3 the boss block runs first:
    it spawns the boss and raises the flag, so the portal block of the
    same tick does nothing. *)
Lemma Game_update_boss_spawns (g : Game.t) :
  (Game.enemiesSpawned g >= Game.enemiesToSpawn g)%Z ->
  Game.enemies g = [] ->
  Game.bossSpawned g = false ->
  Z.rem (Game.level g) 3 = 0%Z ->
  Game.bossSpawned (Game_update_boss g) = true
  /\ Game_update_portal (Game_update_boss g) = Game_update_boss g.
Proof.
  intros Q E B L.
  assert (S : Game_update_boss g = Game_spawnBoss g).
  { unfold Game_update_boss. rewrite E, B, L.
    replace (Game.enemiesSpawned g >=? Game.enemiesToSpawn g)%Z with true;
      [reflexivity|].
    symmetry. apply Z.geb_le. lia. }
  rewrite S. split; [reflexivity|].
  apply Game_update_portal_spawned. reflexivity.
Qed.

(** Once the boss flag is up and there is no portal, a tick keeps both. *)
Lemma Game_update_bossAndPortal (input : Input.t) (g : Game.t) :
  Game.bossSpawned g = true ->
  Game.portal g = None ->
  bossAndPortal (Game_update random canvasWidth input g) = (true, None).
Proof.
  intros B P. unfold Game_update.
  assert (E0 : bossAndPortal g = (true, None))
    by (unfold bossAndPortal; rewrite B, P; reflexivity).
  destruct (negb (Game.is_playing (Game.state g))); [exact E0|].
  pose proof (Game_update_head_frame bossAndPortal PlayFrame_bossAndPortal input g)
    as E1.
  remember (Game_update_spawn random
              (Game_update_camera canvasWidth
                 (Player_update random input (Game_update_shake g)))) as g1.
  rewrite E0 in E1. unfold bossAndPortal in E1.
  injection E1 as B1 P1.
  rewrite (Game_update_boss_spawned _ B1), (Game_update_portal_spawned _ B1),
    (Game_update_portalEntry_none _ P1).
  pose proof (Game_update_tail_frame bossAndPortal PlayFrame_bossAndPortal g1) as E2.
  cbv zeta in E2. rewrite E2.
  unfold bossAndPortal. rewrite B1, P1. reflexivity.
Qed.

(** C1 fails on the code for every level with a boss.  The portal block
    requires [!this.bossSpawned], and nothing in a tick lowers that flag:
    from the tick that spawns the boss on, however many ticks run and
    whatever happens to the enemies, no portal is ever created on that
    level. *)
Theorem boss_level_portal_never_opens (inputs : list Input.t) (g : Game.t) :
  Game.bossSpawned g = true ->
  Game.portal g = None ->
  Game.portal (Game_run random canvasWidth inputs g) = None
  /\ Game.bossSpawned (Game_run random canvasWidth inputs g) = true.
Proof.
  revert g. induction inputs as [|i rest IH]; intros g B P.
  - split; assumption.
  - cbn [Game_run].
    pose proof (Game_update_bossAndPortal i g B P) as E.
    unfold bossAndPortal in E. injection E as B1 P1.
    apply IH; assumption.
Qed.

End Properties.

(** * Concrete runs *)

(** C9 fails on the code.  A new game, the special attack on the first tick
    (energy 100 - 30 = 70), then 150 ticks without input: the regeneration
    adds the binary64 value of 0.2 while [energy < maxEnergy], reaches
    99.80000000000042 after 149 ticks and steps over the bound on the
    150th.  The game is still in play, and energy is above [maxEnergy]. *)
Theorem energy_exceeds_maxEnergy :
  let g := Game_run rnd 800 (pressSpecial :: List.repeat Input.none 150)
             sceneStart in
  Game.state g = Game.playing
  /\ Player.maxEnergy (Game.player g) = 100%float
  /\ Player.energy (Game.player g) = 0x1.900000000001ep+6%float
  /\ PrimFloat.ltb (Player.maxEnergy (Game.player g))
                   (Player.energy (Game.player g)) = true.
Proof. vm_compute. repeat split. Qed.

(** The special attack itself respects the lower bound: it needs
    [energy >= 30] and takes 30. *)
Lemma Player_update_special_energy (random : nat -> Qc) (input : Input.t) (g : Game.t) :
  Player.energy (Game.player (Player_update_special random input g))
  = if Input.special input && (30 <=? Player.energy (Game.player g))%float
       && (Player.attackTimer (Game.player g) <=? 0)%Z
    then (Player.energy (Game.player g) - 30)%float
    else Player.energy (Game.player g).
Proof.
  unfold Player_update_special.
  destruct (_ && _); [|reflexivity].
  unfold Player_special. rewrite pushParticles_player. reflexivity.
Qed.

(** The boss level of the failing input of C1: the tick after the last
    enemy is removed spawns the boss and raises the flag; 300 ticks after
    the boss is gone there is still no portal. *)
Lemma boss_level_scene :
  let g := Game_update rnd 800 Input.none bossLevelQuotaMet in
  Game.bossSpawned g = true
  /\ List.length (Game.enemies g) = 1%nat
  /\ Game.portal g = None
  /\ Game.portal (Game_run rnd 800 (List.repeat Input.none 300) bossLevelCleared)
     = None.
Proof. vm_compute. repeat split. Qed.

Lemma boss_level_portal_never_opens_witness :
  Game.portal (Game_run rnd 800 (List.repeat Input.none 300) bossLevelCleared)
  = None
  /\ Game.bossSpawned
       (Game_run rnd 800 (List.repeat Input.none 300) bossLevelCleared)
     = true.
Proof.
  exact (boss_level_portal_never_opens rnd 800
           (List.repeat Input.none 300) bossLevelCleared eq_refl eq_refl).
Defined.

(** The ranged zombie of the failing input of C2, 20 from the player with
    its cooldown elapsed: [update] runs the melee attack (cooldown 60,
    the player loses 15) and no projectile appears.  At 100 from the
    player, inside the 150 that [setupType] had set, it just walks. *)
Lemma ranged_zombie_scene :
  let r := Zombie_update rnd rangedZombie sceneStart in
  let far := Zombie_update rnd (Zombie.new 0 (CONFIG.GROUND_Y - 50) Zombie.ranged)
               sceneStart in
  Zombie.attackRange rangedZombie = 40
  /\ Zombie.attackCooldown (fst r) = 60%Z
  /\ Zombie.state (fst r) = Zombie.Attack
  /\ Game.projectiles (snd r) = []
  /\ Zombie.state (fst far) = Zombie.Walk
  /\ Game.projectiles (snd far) = [].
Proof. vm_compute. repeat split. Qed.

Lemma ranged_zombie_never_fires_witness :
  Zombie.type rangedZombie = Zombie.ranged
  /\ Qcabs (Player.x (Game.player sceneStart) - Zombie.x rangedZombie) < 150
  /\ Zombie.attackCooldown rangedZombie = 0%Z
  /\ Game.projectiles (snd (Zombie_update rnd rangedZombie sceneStart))
     = Game.projectiles sceneStart.
Proof.
  assert (R : Zombie.attackRange rangedZombie <= Zombie.detectRange rangedZombie)
    by (vm_compute; discriminate).
  split; [vm_compute; reflexivity|]. split; [vm_compute; reflexivity|].
  split; [vm_compute; reflexivity|].
  exact (proj1 (ranged_zombie_never_fires rnd rangedZombie sceneStart R)).
Defined.

(** The scenario of C6: at 151 of 300 an [update] leaves the boss in phase
    1; after a hit of 2 the next [update] puts it in phase 2 at speed 1. *)
Lemma Boss_phase_transition_witness :
  Boss.phase (fst (Boss_update rnd boss151 sceneStart)) = 1%Z
  /\ Boss.health boss149 = 149
  /\ Boss.phase (fst (Boss_update rnd boss149 sceneStart)) = 2%Z
  /\ Boss.speed (fst (Boss_update rnd boss149 sceneStart)) = 1.
Proof.
  assert (D1 : Boss.dead boss151 = false) by (vm_compute; reflexivity).
  assert (P1 : Boss.phase boss151 = 1%Z) by (vm_compute; reflexivity).
  assert (N1 : ~ Boss.health boss151 / Boss.maxHealth boss151 < 0.5)
    by (vm_compute; discriminate).
  assert (D2 : Boss.dead boss149 = false) by (vm_compute; reflexivity).
  assert (P2 : Boss.phase boss149 = 1%Z) by (vm_compute; reflexivity).
  assert (L2 : Boss.health boss149 / Boss.maxHealth boss149 < 0.5)
    by (vm_compute; reflexivity).
  pose proof (Boss_phase_transition rnd boss151 sceneStart D1) as [T1 _].
  pose proof (Boss_phase_transition rnd boss149 sceneStart D2) as [T2 _].
  destruct (T1 P1) as [_ W1]. destruct (W1 N1) as [Q1 _].
  destruct (T2 P2) as [F2 _]. destruct (F2 L2) as (Q2 & S2 & _).
  split; [exact Q1|]. split; [vm_compute; reflexivity|].
  split; [exact Q2 | exact S2].
Defined.

(** The scenario of C8: a basic zombie whose hitbox covers a blocking
    player takes 3 from the player's health. *)
Lemma Zombie_attack_block_damage_witness :
  Player.blocking (Game.player sceneBlocking) = true
  /\ Player.health (Game.player (snd (Zombie_attack rnd basicZombie sceneBlocking)))
     = Player.health (Game.player sceneBlocking) - 3.
Proof.
  assert (D : Zombie.damage basicZombie = 10) by (vm_compute; reflexivity).
  assert (H : Utils.rectIntersect (Zombie_hitbox basicZombie)
                (Player.getBounds (Game.player sceneBlocking)) = true)
    by (vm_compute; reflexivity).
  assert (I : (Entity.invincible (Player.ent (Game.player sceneBlocking)) <= 0)%Z)
    by (vm_compute; discriminate).
  split; [vm_compute; reflexivity|].
  exact (Zombie_attack_block_damage rnd basicZombie sceneBlocking D H I).
Defined.

(** ** The ground smash, with the player anywhere in the trigger range *)

Lemma bossNear_facts :
  Boss.dead bossNear = false
  /\ Boss_phaseTransition bossNear = bossNear
  /\ Boss.specialCooldown bossNear = 0%Z
  /\ Zombie.dead (Boss.zom bossNear) = false
  /\ Zombie.attackCooldown (Boss.zom bossNear) = 0%Z
  /\ Zombie.is_ranged (Zombie.type (Boss.zom bossNear)) = false
  /\ Zombie.x (Boss.zom bossNear) = 999.52
  /\ Zombie.detectRange (Boss.zom bossNear) = 200
  /\ Zombie.attackRange (Boss.zom bossNear) = 40.
Proof. repeat split; reflexivity. Qed.

(** With the player between 50 and 100 to the right of x = 1000, the base
    update walks [bossNear] onto x = 1000 and leaves the game as it was. *)
Lemma bossNear_walks (px : Qc) :
  1050 <= px -> px < 1100 ->
  exists b1 : Boss.t,
    Boss_update_base rnd bossNear (playerAt px) = (b1, playerAt px)
    /\ Boss.x b1 = 1000 /\ Boss.specialCooldown b1 = 0%Z.
Proof.
  intros L U.
  destruct bossNear_facts as (_ & E1 & E2 & E3 & E4 & E5 & E6 & E7 & E8).
  unfold Boss_update_base. rewrite E1, E2. cbn [Z.gtb Z.compare].
  assert (Px : Player.x (Game.player (playerAt px)) = px) by reflexivity.
  assert (A : Qcabs (px - 999.52) = px - 999.52)
    by (apply Qcabs_pos; qc_lra).
  rewrite Zombie_update_walk; try assumption.
  - rewrite Px, E6.
    replace (px - 999.52 >? 0) with true by (symmetry; apply Qcltb_lt; qc_lra).
    eexists. split; [reflexivity|]. split; [|reflexivity].
    apply Qc_is_canon. vm_compute. reflexivity.
  - rewrite Px, E6, E7, A. qc_lra.
  - rewrite Px, E6, E8, A. qc_lra.
Qed.

(** There the smash is triggered and costs the player 20 health, at
    distance [px - 1000]. *)
Lemma bossNear_smashes (px : Qc) :
  1050 <= px -> px < 1100 ->
  let b1 := fst (Boss_update_base rnd bossNear (playerAt px)) in
  let g1 := snd (Boss_update_base rnd bossNear (playerAt px)) in
  Boss_smashTriggered b1 g1 = true
  /\ Qcabs (Player.x (Game.player g1) - Boss.x b1) = px - 1000
  /\ Player.health (Game.player (snd (Boss_update rnd bossNear (playerAt px))))
     = Player.health (Game.player g1) - 20.
Proof.
  intros L U b1' g1'. subst b1' g1'.
  destruct (bossNear_walks px L U) as (b1 & E & X & C).
  rewrite E. cbn [fst snd].
  assert (Px : Player.x (Game.player (playerAt px)) = px) by reflexivity.
  assert (A : Qcabs (px - 1000) = px - 1000) by (apply Qcabs_pos; qc_lra).
  assert (T : Boss_smashTriggered b1 (playerAt px) = true).
  { unfold Boss_smashTriggered. rewrite C, Px, X, A.
    apply andb_true_iff. split; [reflexivity|]. apply Qcltb_lt. qc_lra. }
  split; [exact T|]. split; [rewrite Px, X; exact A|].
  unfold Boss_update.
  replace (Boss.dead bossNear) with false by reflexivity.
  rewrite E, T.
  rewrite Boss_groundSmash_player by (rewrite Px, X, A; qc_lra).
  apply Player_takeDamage_health. vm_compute. discriminate.
Qed.

(** C7, as stated, fails: no radius smaller than the trigger range of 100
    bounds the distance at which a triggered smash damages the player. *)
Lemma groundSmash_radius_counterexample :
  ~ (exists radius : Qc,
        radius < 100
        /\ forall (random : nat -> Qc) (b : Boss.t) (g : Game.t),
             Boss.dead b = false ->
             Boss_smashTriggered (fst (Boss_update_base random b g))
                                 (snd (Boss_update_base random b g)) = true ->
             Player.health (Game.player (snd (Boss_update random b g)))
             < Player.health (Game.player (snd (Boss_update_base random b g))) ->
             Qcabs (Player.x (Game.player (snd (Boss_update_base random b g)))
                    - Boss.x (fst (Boss_update_base random b g)))
             < radius).
Proof.
  intros (radius & R & H).
  set (d := if radius <? 50 then 50 else (radius + 100) * 0.5).
  assert (B : 50 <= d /\ d < 100 /\ radius <= d).
  { subst d. destruct (radius <? 50) eqn:E.
    - apply Qcltb_lt in E. repeat split; qc_lra.
    - apply Qcltb_ge in E. repeat split; qc_lra. }
  destruct B as (B1 & B2 & B3).
  assert (L : 1050 <= 1000 + d) by qc_lra.
  assert (U : 1000 + d < 1100) by qc_lra.
  destruct (bossNear_smashes (1000 + d) L U) as (T & D & E).
  specialize (H rnd bossNear (playerAt (1000 + d)) eq_refl T).
  rewrite E, D in H.
  assert (Hh : Player.health
                 (Game.player (snd (Boss_update_base rnd bossNear
                                      (playerAt (1000 + d))))) = 100).
  { destruct (bossNear_walks (1000 + d) L U) as (b1 & Eb & _).
    rewrite Eb. reflexivity. }
  rewrite Hh in H.
  assert (F : 1000 + d - 1000 < radius) by (apply H; reflexivity).
  qc_lra.
Qed.

Lemma Boss_update_groundSmash_witness :
  Game.screenShake (snd (Boss_update rnd bossNear (playerAt 1050))) = 15
  /\ Boss.specialCooldown (fst (Boss_update rnd bossNear (playerAt 1050)))
     = 180%Z.
Proof.
  assert (D : Boss.dead bossNear = false) by (vm_compute; reflexivity).
  assert (T : Boss_smashTriggered
                (fst (Boss_update_base rnd bossNear (playerAt 1050)))
                (snd (Boss_update_base rnd bossNear (playerAt 1050))) = true)
    by (vm_compute; reflexivity).
  pose proof (Boss_update_groundSmash rnd bossNear (playerAt 1050) D T) as W.
  cbv zeta in W. destruct W as (_ & _ & S & _ & _ & _ & C).
  split; [exact S | exact C].
Defined.

(** In phase 2 [groundSmash] pushes its two zombies onto the array that
    [Game.update] is filtering, and the result of [filter] replaces that
    array: after the tick the boss is still the only enemy. *)
Lemma groundSmash_minions_scene :
  List.length (Game.enemies (snd (Boss_update rnd bossPhase2 bossFight))) = 3%nat
  /\ List.length (Game.enemies (Game_update rnd 800 Input.none bossFight))
     = 1%nat
  /\ Player.health (Game.player (Game_update rnd 800 Input.none bossFight))
     = 80.
Proof. vm_compute. repeat split. Qed.

(** * Further properties of the code *)

(** Arithmetic over [Qc] by way of [Q], unfolding nested operations. *)
Ltac qc_norm :=
  unfold Qclt, Qcle, Qcdiv, Qcminus in *;
  repeat (progress (unfold Qcplus, Qcopp, Qcmult, Q2Qc in *; cbn [this] in *;
                    repeat rewrite Qred_correct in *)).

(** Boolean comparisons in the context, read as propositions. *)
Ltac qc_bools :=
  repeat match goal with
         | H : (_ <? _) = true |- _ => apply Qcltb_lt in H
         | H : (_ <? _) = false |- _ => apply Qcltb_ge in H
         | H : (_ <=? _) = true |- _ => apply Qcleb_le in H
         | H : (_ <=? _) = false |- _ => apply Qcleb_gt in H
         end.

(** Leaves of a case analysis on comparisons. *)
Ltac qc_solve :=
  first [ reflexivity | assumption | qc_norm; lra | exfalso; qc_norm; lra ].

(** ** [Utils.clamp] and [Utils.lerp] *)

(** [clamp] with its bounds in order: the result lies between them, a
    value already inside is returned as it is, and a value outside is
    replaced by the bound it passed. *)
Theorem Utils_clamp_bounds (val min max : Qc) :
  min <= max ->
  (min <= Utils.clamp val min max /\ Utils.clamp val min max <= max)
  /\ (min <= val -> val <= max -> Utils.clamp val min max = val)
  /\ (val < min -> Utils.clamp val min max = min)
  /\ (max < val -> Utils.clamp val min max = max).
Proof.
  intro H. unfold Utils.clamp, Math_max, Math_min.
  destruct (val <? max) eqn:E1; [destruct (min <? val) eqn:E2
                                | destruct (min <? max) eqn:E2];
    qc_bools;
    repeat split; intros;
    first [ reflexivity | assumption | apply Qcle_refl
          | now apply Qclt_le_weak
          | apply Qcle_antisym; assumption
          | exfalso; qc_norm; lra
          | apply Qc_is_canon; qc_norm; lra ].
Qed.

(** With the bounds out of order ([max < min]) [clamp] returns [min],
    whatever the value. *)
Lemma Utils_clamp_inverted (val min max : Qc) :
  max < min -> Utils.clamp val min max = min.
Proof.
  intro H. unfold Utils.clamp, Math_max, Math_min.
  destruct (val <? max) eqn:E1.
  - destruct (min <? val) eqn:E2; [|reflexivity].
    qc_bools. exfalso. qc_norm. lra.
  - replace (min <? max) with false; [reflexivity|].
    symmetry. apply Qcltb_ge. now apply Qclt_le_weak.
Qed.

(** [lerp] with a factor between 0 and 1: the distance left to the target
    is the old distance times [1 - t], and the result lies between the two
    ends. *)
Theorem Utils_lerp_between (a b t : Qc) :
  0 <= t -> t <= 1 ->
  b - Utils.lerp a b t = (1 - t) * (b - a)
  /\ (a <= b -> a <= Utils.lerp a b t /\ Utils.lerp a b t <= b)
  /\ (b <= a -> b <= Utils.lerp a b t /\ Utils.lerp a b t <= a).
Proof.
  intros T0 T1. unfold Utils.lerp.
  split; [ring|]. split; intro AB; split; qc_norm; nra.
Qed.

(** ** [Entity.updatePhysics] *)

(** The two outcomes of a physics step, field by field. *)
Lemma Entity_updatePhysics_cases (e : Entity.t) :
  let vy1 := Entity.vy e + CONFIG.GRAVITY in
  let vx1 := Entity.vx e * CONFIG.FRICTION in
  let inv1 := (if (Entity.invincible e >? 0)%Z then Entity.invincible e - 1
               else Entity.invincible e)%Z in
  Entity.updatePhysics e
  = if Entity.y e + vy1 + Entity.h e >? CONFIG.GROUND_Y
    then Entity.mk (Entity.x e + vx1) (CONFIG.GROUND_Y - Entity.h e)
           (Entity.w e) (Entity.h e) vx1 0 (Entity.facing e) true
           (Entity.dead e) inv1 (Entity.animFrame e) (Entity.animTimer e)
           (Entity.health e) (Entity.maxHealth e)
    else Entity.mk (Entity.x e + vx1) (Entity.y e + vy1)
           (Entity.w e) (Entity.h e) vx1 vy1 (Entity.facing e) false
           (Entity.dead e) inv1 (Entity.animFrame e) (Entity.animTimer e)
           (Entity.health e) (Entity.maxHealth e).
Proof.
  unfold Entity.updatePhysics. cbv zeta. proj.
  destruct (Entity.y e + (Entity.vy e + CONFIG.GRAVITY) + Entity.h e
            >? CONFIG.GROUND_Y);
    proj; destruct (Entity.invincible e >? 0)%Z; reflexivity.
Qed.

(** A physics step never leaves an entity below the ground line.  When
    the step would cross it, the entity is put on the line with no
    vertical speed and [grounded] set; otherwise it falls freely with
    [grounded] cleared.  Horizontally it moves by the damped speed.  The
    invincibility counter goes down by one until it reaches 0, and size,
    health and the dead flag are not touched. *)
Theorem Entity_updatePhysics_spec (e : Entity.t) :
  let e' := Entity.updatePhysics e in
  Entity.y e' + Entity.h e' <= CONFIG.GROUND_Y
  /\ (Entity.grounded e' = true ->
      Entity.y e' + Entity.h e' = CONFIG.GROUND_Y /\ Entity.vy e' = 0)
  /\ (Entity.grounded e' = false ->
      Entity.vy e' = Entity.vy e + CONFIG.GRAVITY
      /\ Entity.y e' = Entity.y e + Entity.vy e')
  /\ (Entity.grounded e' = true <->
      CONFIG.GROUND_Y < Entity.y e + (Entity.vy e + CONFIG.GRAVITY) + Entity.h e)
  /\ Entity.vx e' = Entity.vx e * CONFIG.FRICTION
  /\ Entity.x e' = Entity.x e + Entity.vx e'
  /\ Entity.invincible e'
     = (if (Entity.invincible e >? 0)%Z then Entity.invincible e - 1
        else Entity.invincible e)%Z
  /\ Entity.w e' = Entity.w e /\ Entity.h e' = Entity.h e
  /\ Entity.health e' = Entity.health e /\ Entity.dead e' = Entity.dead e.
Proof.
  cbv zeta. rewrite Entity_updatePhysics_cases. cbv zeta.
  destruct (Entity.y e + (Entity.vy e + CONFIG.GRAVITY) + Entity.h e
            >? CONFIG.GROUND_Y) eqn:G; qc_bools; proj.
  - split; [ring_simplify; apply Qcle_refl|].
    split; [intros _; split; [ring | reflexivity]|].
    split; [discriminate|].
    split; [split; [intros _; exact G | reflexivity]|].
    repeat split; reflexivity.
  - split; [exact G|].
    split; [discriminate|].
    split; [intros _; split; reflexivity|].
    split; [split; [discriminate | intro L; exfalso; qc_norm; lra]|].
    repeat split; reflexivity.
Qed.

(** An entity that stands on the ground stays there: the step leaves its
    position on the line, its vertical speed at 0 and [grounded] set. *)
Theorem Entity_updatePhysics_standing (e : Entity.t) :
  Entity.y e + Entity.h e = CONFIG.GROUND_Y ->
  Entity.vy e = 0 ->
  Entity.y (Entity.updatePhysics e) = Entity.y e
  /\ Entity.vy (Entity.updatePhysics e) = 0
  /\ Entity.grounded (Entity.updatePhysics e) = true.
Proof.
  intros Y V. rewrite Entity_updatePhysics_cases. cbv zeta.
  assert (G : (Entity.y e + (Entity.vy e + CONFIG.GRAVITY) + Entity.h e
               >? CONFIG.GROUND_Y) = true).
  { apply Qcltb_lt. rewrite V.
    replace (Entity.y e + (0 + CONFIG.GRAVITY) + Entity.h e)
      with (CONFIG.GROUND_Y + CONFIG.GRAVITY) by (rewrite <- Y; ring).
    reflexivity. }
  rewrite G. proj. repeat split. rewrite <- Y. ring.
Qed.

(** ** The screen shake *)

(** The decay block leaves a shake that is either 0 or at least 0.5: a
    positive shake loses a tenth, and anything that ends below 0.5, a
    negative value included, is cut to 0.  The result is never negative and
    never above a non-negative shake it started from. *)
Theorem Game_update_shake_spec (g : Game.t) :
  let s := Game.screenShake g in
  let s' := Game.screenShake (Game_update_shake g) in
  (s' = 0 \/ (0.5 <= s' /\ s' = s * 0.9))
  /\ 0 <= s'
  /\ (0 <= s -> s' <= s)
  /\ (s * 0.9 < 0.5 -> s' = 0).
Proof.
  cbv zeta. unfold Game_update_shake.
  destruct (Game.screenShake g >? 0) eqn:P; proj;
    match goal with |- context [if ?c then _ else _] => destruct c eqn:L end;
    proj; qc_bools.
  - split; [left; reflexivity|]. repeat split; intros; qc_solve.
  - split; [right; split; [assumption | reflexivity]|].
    repeat split; intros; qc_solve.
  - split; [left; reflexivity|]. repeat split; intros; qc_solve.
  - exfalso. qc_norm; lra.
Qed.

(** ** [calculateRank] *)

(** On a level of index at least 1 the rank is decided by the score
    against multiples of the level: S from 3000 per level, A from 2400, B
    from 1600, C below. *)
Theorem Game_calculateRank_thresholds (g : Game.t) :
  (1 <= Game.level g)%Z ->
  let s := Game.score g in
  let l := Game.level g in
  (Game_calculateRank g = RankS <-> (3000 * l <= s)%Z)
  /\ (Game_calculateRank g = RankA <-> (2400 * l <= s < 3000 * l)%Z)
  /\ (Game_calculateRank g = RankB <-> (1600 * l <= s < 2400 * l)%Z)
  /\ (Game_calculateRank g = RankC <-> (s < 1600 * l)%Z).
Proof.
  intro L. cbv zeta. unfold Game_calculateRank. cbv zeta.
  set (s := Game.score g) in *. set (l := Game.level g) in *.
  assert (R : forall k : Qc,
             k <= num s / (2000 * num l)
             <-> (this k * inject_Z (2000 * l) <= inject_Z s)%Q).
  { intro k. unfold num, Qcle, Qcdiv.
    assert (P : (0 < inject_Z (2000 * l))%Q).
    { rewrite <- (Zlt_Qlt 0). lia. }
    assert (E : (this (Q2Qc (inject_Z s) * / (2000 * Q2Qc (inject_Z l)))
                 == inject_Z s / inject_Z (2000 * l))%Q).
    { unfold Qcmult, Qcinv, Q2Qc; cbn [this]. repeat rewrite Qred_correct.
      rewrite inject_Z_mult. reflexivity. }
    rewrite E. split; intro H.
    - apply (Qmult_le_r _ _ (inject_Z (2000 * l))) in H; [|exact P].
      rewrite Qmult_comm, (Qmult_comm (inject_Z s / _)) in H.
      rewrite Qmult_div_r in H; [|intro Z0; rewrite Z0 in P; discriminate].
      rewrite Qmult_comm. exact H.
    - apply Qle_shift_div_l; [exact P | exact H]. }
  assert (T : forall (k : Qc) (n : Z),
             (this k * inject_Z (2000 * l) == inject_Z (n * l))%Q ->
             ((k <=? num s / (2000 * num l)) = true <-> (n * l <= s)%Z)).
  { intros k n E. unfold Qcleb. rewrite Qle_bool_iff.
    change (k <= num s / (2000 * num l) <-> (n * l <= s)%Z).
    rewrite R, E, <- Zle_Qle. reflexivity. }
  assert (T1 := T 1.5 3000%Z). assert (T2 := T 1.2 2400%Z).
  assert (T3 := T 0.8 1600%Z). clear T R.
  assert (E1 : (this 1.5 * inject_Z (2000 * l) == inject_Z (3000 * l))%Q)
    by (rewrite !inject_Z_mult; cbn; field).
  assert (E2 : (this 1.2 * inject_Z (2000 * l) == inject_Z (2400 * l))%Q)
    by (rewrite !inject_Z_mult; cbn; field).
  assert (E3 : (this 0.8 * inject_Z (2000 * l) == inject_Z (1600 * l))%Q)
    by (rewrite !inject_Z_mult; cbn; field).
  specialize (T1 E1). specialize (T2 E2). specialize (T3 E3).
  destruct (1.5 <=? num s / (2000 * num l)) eqn:B1;
    destruct (1.2 <=? num s / (2000 * num l)) eqn:B2;
    destruct (0.8 <=? num s / (2000 * num l)) eqn:B3;
    repeat split; intros; try discriminate; try reflexivity;
    try (exfalso;
         repeat match goal with
                | H : true = true <-> _ |- _ => destruct H as [H _]; specialize (H eq_refl)
                | H : false = true <-> _ |- _ =>
                    let N := fresh in
                    assert (N : ~ _) by (intro N; apply H in N; discriminate N);
                    clear H
                end; lia);
    repeat match goal with
           | H : true = true <-> _ |- _ => destruct H as [H _]; specialize (H eq_refl)
           | H : false = true <-> _ |- _ =>
               let N := fresh in
               assert (N : ~ _) by (intro N; apply H in N; discriminate N);
               clear H
           end; lia.
Qed.

(** ** What the loops of a tick leave alone *)

Section Loops.

Variable random : nat -> Qc.
Variable canvasWidth : Qc.

Context {A : Type} (f : Game.t -> A) (HF : LoopFrame f).

(** Rewriting with the equations of a [LoopFrame]. *)
Ltac loops :=
  unfold Game.playSound, Game.on_player, Game.pushParticle,
    Game.pushProjectile, Game.pushEnemy;
  repeat first
    [ rewrite (pushParticles_Frame random f (lf_frame _ HF))
    | rewrite (frame_player _ (lf_frame _ HF))
    | rewrite (frame_sounds _ (lf_frame _ HF))
    | rewrite (frame_screenShake _ (lf_frame _ HF))
    | rewrite (frame_particles _ (lf_frame _ HF))
    | rewrite (frame_draws _ (lf_frame _ HF))
    | rewrite (lf_enemies _ HF)
    | rewrite (lf_projectiles _ HF)
    | rewrite (lf_score _ HF)
    | rewrite (lf_kills _ HF)
    | rewrite (lf_maxCombo _ HF) ];
  try reflexivity.

Lemma Enemy_update_loop e g : f (snd (Enemy_update random e g)) = f g.
Proof.
  destruct e as [z|b]; cbn [Enemy_update].
  - pose proof (Zombie_update_frame random f (lf_frame _ HF) z g
                  (lf_projectiles _ HF)) as E.
    destruct (Zombie_update random z g). exact E.
  - assert (E : f (snd (Boss_update random b g)) = f g).
    { unfold Boss_update. destruct (Boss.dead b); [reflexivity|].
      assert (E : f (snd (Boss_update_base random b g)) = f g).
      { unfold Boss_update_base.
        match goal with |- context [Zombie_update random ?z g] =>
          pose proof (Zombie_update_frame random f (lf_frame _ HF) z g
                        (lf_projectiles _ HF)) as EZ;
          destruct (Zombie_update random z g) as [z' g'] end.
        exact EZ. }
      destruct (Boss_update_base random b g) as [b1 g1]. cbn [snd] in E.
      destruct (Boss_smashTriggered b1 g1); [|exact E].
      rewrite (Boss_groundSmash_frame random f (lf_frame _ HF) _ _
                 (lf_enemies _ HF)).
      exact E. }
    destruct (Boss_update random b g). exact E.
Qed.

Lemma Game_update_enemy_loop e g :
  f (snd (Game_update_enemy random e g)) = f g.
Proof.
  unfold Game_update_enemy.
  destruct (negb (Enemy_dead e)).
  - pose proof (Enemy_update_loop e g) as E.
    destruct (Enemy_update random e g) as [e1 g1]. cbn [snd] in E.
    destruct (Player.attackBox (Game.player g1)) as [box|]; [|exact E].
    destruct (Utils.rectIntersect _ _); [|exact E].
    destruct (Enemy_takeDamage _ _ e1) as [hit e2].
    destruct hit; [|exact E].
    cbn [snd]. loops. exact E.
  - cbn [snd]. loops.
Qed.

Lemma Game_filter_enemies_loop es g :
  f (snd (Game_filter_enemies random es g)) = f g.
Proof.
  revert g. induction es as [|e es IH]; intro g; [reflexivity|].
  cbn [Game_filter_enemies].
  pose proof (Game_update_enemy_loop e g) as E.
  destruct (Game_update_enemy random e g) as [k g1]. cbn [snd] in E.
  specialize (IH g1).
  destruct (Game_filter_enemies random es g1) as [ks g2]. cbn [snd] in *.
  congruence.
Qed.

Lemma Game_update_enemies_loop g : f (Game_update_enemies random g) = f g.
Proof.
  unfold Game_update_enemies.
  pose proof (Game_filter_enemies_loop (Game.enemies g) g) as E.
  destruct (Game_filter_enemies random (Game.enemies g) g) as [ks g1].
  cbn [snd] in E. loops. exact E.
Qed.

Lemma Game_update_projectile_loop p g :
  f (snd (Game_update_projectile canvasWidth p g)) = f g.
Proof.
  unfold Game_update_projectile.
  destruct (_ && Utils.rectIntersect _ _); [|reflexivity].
  destruct (Player.takeDamage _ _ _) as [hit pl].
  destruct hit; cbn [snd]; loops.
Qed.

Lemma Game_filter_projectiles_loop ps g :
  f (snd (Game_filter_projectiles canvasWidth ps g)) = f g.
Proof.
  revert g. induction ps as [|p ps IH]; intro g; [reflexivity|].
  cbn [Game_filter_projectiles].
  pose proof (Game_update_projectile_loop p g) as E.
  destruct (Game_update_projectile canvasWidth p g) as [k g1]. cbn [snd] in E.
  specialize (IH g1).
  destruct (Game_filter_projectiles canvasWidth ps g1) as [ks g2].
  cbn [snd] in *. congruence.
Qed.

Lemma Game_update_projectiles_loop g :
  f (Game_update_projectiles canvasWidth g) = f g.
Proof.
  unfold Game_update_projectiles.
  pose proof (Game_filter_projectiles_loop (Game.projectiles g) g) as E.
  destruct (Game_filter_projectiles canvasWidth (Game.projectiles g) g) as [ks g1].
  cbn [snd] in E. loops. exact E.
Qed.

(** The three loops together. *)
Lemma Game_update_loops g :
  f (Game_update_particles
       (Game_update_projectiles canvasWidth (Game_update_enemies random g)))
  = f g.
Proof.
  unfold Game_update_particles. loops.
  rewrite Game_update_projectiles_loop. apply Game_update_enemies_loop.
Qed.

(** The player's update and the shake decay, which come first. *)
Lemma Game_update_player_loop input g :
  f (Player_update random input (Game_update_shake g)) = f g.
Proof.
  rewrite Player_update_frame by exact (lf_frame _ HF).
  apply Game_update_shake_frame, (lf_frame _ HF).
Qed.

End Loops.

(** ** What the camera, spawn, boss and portal blocks leave alone *)

Section Blocks.

Variable random : nat -> Qc.
Variable canvasWidth : Qc.

Context {A : Type} (f : Game.t -> A).

Lemma Game_update_camera_other g :
  (forall q g, f (Game.set_cameraX q g) = f g) ->
  f (Game_update_camera canvasWidth g) = f g.
Proof. intro H. unfold Game_update_camera. rewrite !H. reflexivity. Qed.

Lemma Game_spawnEnemy_other g :
  (forall d g, f (Game.set_draws d g) = f g) ->
  (forall l g, f (Game.set_enemies l g) = f g) ->
  (forall n g, f (Game.set_enemiesSpawned n g) = f g) ->
  f (Game_spawnEnemy random g) = f g.
Proof.
  intros Hd He Hs. unfold Game_spawnEnemy, Math_random.
  destruct (_ >=? _)%Z; [reflexivity|].
  destruct (_ >? 0.5); unfold Game.pushEnemy; rewrite Hs, He, !Hd; reflexivity.
Qed.

Lemma Game_update_spawn_other g :
  (forall d g, f (Game.set_draws d g) = f g) ->
  (forall l g, f (Game.set_enemies l g) = f g) ->
  (forall n g, f (Game.set_enemiesSpawned n g) = f g) ->
  (forall n g, f (Game.set_spawnTimer n g) = f g) ->
  f (Game_update_spawn random g) = f g.
Proof.
  intros Hd He Hs Ht. unfold Game_update_spawn.
  destruct (_ && _); rewrite ?Ht, ?Game_spawnEnemy_other, ?Ht by assumption;
    reflexivity.
Qed.

Lemma Game_update_boss_other g :
  (forall b g, f (Game.set_bossSpawned b g) = f g) ->
  (forall l g, f (Game.set_enemies l g) = f g) ->
  f (Game_update_boss g) = f g.
Proof.
  intros Hb He. unfold Game_update_boss.
  destruct (_ && _); [|reflexivity].
  destruct (Game.enemies g); [|reflexivity].
  unfold Game_spawnBoss, Game.pushEnemy. rewrite He, Hb. reflexivity.
Qed.

Lemma Game_update_portal_other g :
  (forall o g, f (Game.set_portal o g) = f g) ->
  (forall l g, f (Game.set_sounds l g) = f g) ->
  f (Game_update_portal g) = f g.
Proof.
  intros Hp Hs. unfold Game_update_portal.
  destruct (_ && _); [|reflexivity].
  unfold Game.playSound. rewrite Hs, Hp. reflexivity.
Qed.

Lemma Game_update_portalEntry_other g :
  (forall o g, f (Game.set_portal o g) = f g) ->
  (forall l g, f (Game.set_sounds l g) = f g) ->
  (forall st g, f (Game.set_state st g) = f g) ->
  f (Game_update_portalEntry g) = f g.
Proof.
  intros Hp Hs Ht. unfold Game_update_portalEntry.
  destruct (Game.portal g); [|reflexivity].
  destruct (Utils.rectIntersect _ _);
    unfold Game_levelComplete, Game.playSound; rewrite ?Hs, ?Ht, Hp; reflexivity.
Qed.

Lemma Game_gameOver_other g :
  (forall l g, f (Game.set_sounds l g) = f g) ->
  (forall st g, f (Game.set_state st g) = f g) ->
  f (Game_gameOver g) = f g.
Proof.
  intros Hs Ht. unfold Game_gameOver, Game.playSound. rewrite Hs, Ht. reflexivity.
Qed.

End Blocks.

(** The readings used below. *)
Lemma LoopFrame_state : LoopFrame Game.state.
Proof. constructor; [constructor|..]; reflexivity. Qed.

Lemma LoopFrame_cameraX : LoopFrame Game.cameraX.
Proof. constructor; [constructor|..]; reflexivity. Qed.

Lemma LoopFrame_level : LoopFrame Game.level.
Proof. constructor; [constructor|..]; reflexivity. Qed.

Lemma LoopFrame_enemiesToSpawn : LoopFrame Game.enemiesToSpawn.
Proof. constructor; [constructor|..]; reflexivity. Qed.

Lemma LoopFrame_enemiesSpawned : LoopFrame Game.enemiesSpawned.
Proof. constructor; [constructor|..]; reflexivity. Qed.

Lemma LoopFrame_spawnTimer : LoopFrame Game.spawnTimer.
Proof. constructor; [constructor|..]; reflexivity. Qed.

Lemma LoopFrame_portal : LoopFrame Game.portal.
Proof. constructor; [constructor|..]; reflexivity. Qed.

Lemma LoopFrame_bossSpawned : LoopFrame Game.bossSpawned.
Proof. constructor; [constructor|..]; reflexivity. Qed.
